(** * The "exact" EVM facilitator: verify and settle

    A shallow embedding of [verify] and [settle] of the x402 facilitator
    (scheme "exact", EVM), with the properties of its specification.

    The two functions are asynchronous TypeScript functions that talk to
    external collaborators (chain RPC, the viem library, the clock) and may
    throw.  They are embedded in a small monad that threads a trace of the
    external calls and carries a result that is either a value or a thrown
    exception.  Every collaborator is a field of a [World] record, so that
    each theorem holds whatever the collaborators answer. *)

From Stdlib Require Import String Ascii List ZArith Bool Lia.
Import ListNotations.
Open Scope string_scope.
Open Scope Z_scope.

(** ** Data model (types/verify) *)

Module Authorization.
Record t : Type := mk {
  from : string;
  to : string;
  value : string;
  validAfter : string;
  validBefore : string;
  nonce : string
}.
End Authorization.

Module ExactEvmPayload.
Record t : Type := mk {
  authorization : Authorization.t;
  signature : string
}.
End ExactEvmPayload.

Module PaymentPayload.
Record t : Type := mk {
  scheme : string;
  network : string;
  payload : ExactEvmPayload.t
}.
End PaymentPayload.

Module Extra.
(** [paymentRequirements.extra]: both entries are optional. *)
Record t : Type := mk {
  name : option string;
  version : option string
}.
End Extra.

Module PaymentRequirements.
Record t : Type := mk {
  scheme : string;
  network : string;
  asset : string;
  payTo : string;
  maxAmountRequired : string;
  extra : option Extra.t
}.

(** The same requirements with another [network]. *)
Definition with_network (r : t) (n : string) : t :=
  mk (scheme r) n (asset r) (payTo r) (maxAmountRequired r) (extra r).
End PaymentRequirements.

Module VerifyResponse.
Record t : Type := mk {
  isValid : bool;
  invalidReason : option string;
  payer : string
}.
End VerifyResponse.

Module SettleResponse.
Record t : Type := mk {
  success : bool;
  network : string;
  transaction : string;
  errorReason : option string;
  payer : string
}.
End SettleResponse.

(** ** External collaborators *)

(** The outcome of a call that may throw.  An exception is represented by
    its message. *)
Inductive result (A : Type) : Type :=
| Ok (a : A)
| Throw (e : string).
Arguments Ok {A} a.
Arguments Throw {A} e.

(** The EIP-712 domain built by [verify]. *)
Record Domain : Type := mkDomain {
  domain_name : string;
  domain_version : string;
  domain_chainId : Z;
  domain_verifyingContract : string
}.

(** The argument of viem's [verifyTypedData].  The constant table
    [authorizationTypes] is the same in every call and is left to the
    collaborator. *)
Record TypedData : Type := mkTypedData {
  td_address : string;
  td_primaryType : string;
  td_domain : Domain;
  td_message : Authorization.t;
  td_signature : string
}.

(** The argument of [wallet.writeContract]; [wc_value], [wc_validAfter] and
    [wc_validBefore] are the BigInt arguments. *)
Record WriteContract : Type := mkWriteContract {
  wc_address : string;
  wc_functionName : string;
  wc_from : string;
  wc_to : string;
  wc_value : Z;
  wc_validAfter : Z;
  wc_validBefore : Z;
  wc_nonce : string;
  wc_signature : string
}.

Record Receipt : Type := mkReceipt {
  status : string
}.

(** An entry of the per-chain table [config]. *)
Record ChainConfig : Type := mkChainConfig {
  usdcAddress : string;
  usdcName : string
}.

(** Everything [verify] and [settle] get from outside: the helpers of
    shared/ and shared/evm, the table [config], viem, the wallet client and
    the JavaScript runtime ([BigInt] on a string, [Date.now]).  [Date_now k]
    is the reading, in milliseconds, of the k-th call of [Date.now] (counted
    from 0) in one invocation.  The client and the wallet are part of the
    world: [getVersion] and [getERC20Balance] are already applied to them. *)
Record World : Type := mkWorld {
  getNetworkId : string -> result Z;
  config : Z -> option ChainConfig;
  getVersion : result string;
  verifyTypedData : TypedData -> result bool;
  getAddress : string -> result string;
  Date_now : nat -> Z;
  BigInt : string -> result Z;
  getERC20Balance : string -> string -> result Z;
  writeContract : WriteContract -> result string;
  waitForTransactionReceipt : string -> result Receipt
}.

(** ** Traces *)

(** A value shown in the data object of a [console.error] call. *)
Inductive LogValue : Type :=
| LString (s : string)
| LNumber (n : Z)
| LExtra (e : option Extra.t)
| LTypedData (td : Domain * Authorization.t)
| LPayload (p : PaymentPayload.t)
| LRequirements (r : PaymentRequirements.t)
| LReceipt (r : Receipt).

(** The observable actions of one invocation, in the order they happen. *)
Inductive Event : Type :=
| EGetNetworkId (network : string)
| EGetVersion
| EVerifyTypedData (td : TypedData)
| EGetAddress (a : string)
| EDateNow
| EGetERC20Balance (token owner : string)
| EWriteContract (args : WriteContract)
| EWaitForTransactionReceipt (hash : string)
| EConsoleError (msg : string) (data : list (string * LogValue)).

Record State : Type := mkState {
  trace : list Event;
  reads : nat
}.

Definition init : State := mkState [] 0.

(** ** The monad: a trace, a clock counter and exceptions *)

Definition M (A : Type) : Type := State -> result A * State.

Definition ret {A : Type} (a : A) : M A := fun s => (Ok a, s).

Definition bind {A B : Type} (m : M A) (k : A -> M B) : M B :=
  fun s =>
    match m s with
    | (Ok a, s') => k a s'
    | (Throw e, s') => (Throw e, s')
    end.

Notation "x <- m ;; k" := (bind m (fun x => k))
  (at level 61, m at next level, right associativity).
Notation "m ;;; k" := (bind m (fun _ => k))
  (at level 61, right associativity).

(** A pure computation that may throw. *)
Definition lift {A : Type} (r : result A) : M A := fun s => (r, s).

Definition throw {A : Type} (e : string) : M A := lift (Throw e).

(** A call to a collaborator: the call is recorded, then it answers. *)
Definition call {A : Type} (ev : Event) (r : result A) : M A :=
  fun s => (r, mkState (trace s ++ [ev]) (reads s)).

Definition console_error (msg : string) (data : list (string * LogValue))
  : M unit :=
  call (EConsoleError msg data) (Ok tt).

(** [Math.floor(Date.now() / 1000)]. *)
Definition now_seconds (w : World) : M Z :=
  fun s =>
    (Ok (Date_now w (reads s) / 1000),
     mkState (trace s ++ [EDateNow]) (S (reads s))).

(** [try { body } catch { handler }] where the handler returns from the
    function and the rest of the function, [k], runs after the body. *)
Definition try_catch {A B : Type} (body : M A) (handler : M B)
  (k : A -> M B) : M B :=
  fun s =>
    match body s with
    | (Ok a, s') => k a s'
    | (Throw _, s') => handler s'
    end.

(** ** The facilitator *)

(** Modelled from the spec: the constant [SCHEME] exported by schemes/exact,
    which is not among the sources; the specification names the scheme
    "exact". *)
Definition SCHEME : string := "exact".

Definition primaryType : string := "TransferWithAuthorization".

Section Facilitator.

Variable w : World.

(** [paymentRequirements.extra?.name] and [paymentRequirements.extra?.version]. *)
Definition extra_name (r : PaymentRequirements.t) : option string :=
  match PaymentRequirements.extra r with
  | Some e => Extra.name e
  | None => None
  end.

Definition extra_version (r : PaymentRequirements.t) : option string :=
  match PaymentRequirements.extra r with
  | Some e => Extra.version e
  | None => None
  end.

(** The body of the [try] block of [verify]: chain id, token name, token
    address and token version. *)
Definition resolve (payload : PaymentPayload.t)
  (paymentRequirements : PaymentRequirements.t) : M Domain :=
  chainId <- call (EGetNetworkId (PaymentPayload.network payload))
                  (getNetworkId w (PaymentPayload.network payload)) ;;
  name <- match extra_name paymentRequirements with
          | Some n => ret n
          | None =>
              match config w chainId with
              | Some c => ret (usdcName c)
              | None => throw "TypeError: Cannot read properties of undefined"
              end
          end ;;
  let erc20Address := PaymentRequirements.asset paymentRequirements in
  version <- match extra_version paymentRequirements with
             | Some v => ret v
             | None => call EGetVersion (getVersion w)
             end ;;
  ret (mkDomain name version chainId erc20Address).

Definition invalid (reason : string) (payload : PaymentPayload.t)
  : VerifyResponse.t :=
  VerifyResponse.mk false (Some reason)
    (Authorization.from
       (ExactEvmPayload.authorization (PaymentPayload.payload payload))).

Definition incompatible_scheme (payload : PaymentPayload.t)
  (paymentRequirements : PaymentRequirements.t) : string :=
  "Incompatible payload scheme. payload: " ++ PaymentPayload.scheme payload
  ++ ", paymentRequirements: " ++ PaymentRequirements.scheme paymentRequirements
  ++ ", supported: " ++ SCHEME.

Definition msg_resolve : string :=
  "X402 Log: EVM Facilitator verify - Failed to get chainId, name, erc20Address, or version from payload/paymentRequirements".
Definition msg_attempt : string :=
  "X402 Log: EVM Facilitator verify - Attempting to verify typed data with:".
Definition msg_signature : string :=
  "X402 Log: EVM Facilitator verify - Permit signature recovery failed".
Definition msg_recipient : string :=
  "X402 Log: EVM Facilitator verify - Payment 'to' address mismatch".
Definition msg_expired : string :=
  "X402 Log: EVM Facilitator verify - Permit validBefore is too soon or expired".
Definition msg_not_yet : string :=
  "X402 Log: EVM Facilitator verify - Permit validAfter is in the future".
Definition msg_amount : string :=
  "X402 Log: EVM Facilitator verify - Payload value is less than maxAmountRequired".

Definition verify (payload : PaymentPayload.t)
  (paymentRequirements : PaymentRequirements.t) : M VerifyResponse.t :=
  let auth := ExactEvmPayload.authorization (PaymentPayload.payload payload) in
  let sig := ExactEvmPayload.signature (PaymentPayload.payload payload) in
  (* Verify payload version *)
  if negb (PaymentPayload.scheme payload =? SCHEME)%string
     || negb (PaymentRequirements.scheme paymentRequirements =? SCHEME)%string
  then
    ret (invalid (incompatible_scheme payload paymentRequirements) payload)
  else
  try_catch (resolve payload paymentRequirements)
    (console_error msg_resolve
       [("payloadNetwork", LString (PaymentPayload.network payload));
        ("paymentRequirementsExtra",
          LExtra (PaymentRequirements.extra paymentRequirements));
        ("paymentRequirementsAsset",
          LString (PaymentRequirements.asset paymentRequirements))] ;;;
     ret (invalid "invalid_network" payload))
    (fun dom =>
  (* Verify permit signature is recoverable for the owner address *)
  let permitTypedData := (dom, auth) in
  console_error msg_attempt
    [("permitTypedData", LTypedData permitTypedData);
     ("from", LString (Authorization.from auth));
     ("signature", LString sig)] ;;;
  let td := mkTypedData (Authorization.from auth) primaryType dom auth sig in
  recoveredAddress <- call (EVerifyTypedData td) (verifyTypedData w td) ;;
  if negb recoveredAddress then
    console_error msg_signature
      [("from", LString (Authorization.from auth));
       ("signature", LString sig)] ;;;
    ret (invalid "invalid_scheme" payload)
  else
  (* Verify that payment was made to the correct address *)
  to_ <- call (EGetAddress (Authorization.to auth))
              (getAddress w (Authorization.to auth)) ;;
  payTo_ <- call (EGetAddress (PaymentRequirements.payTo paymentRequirements))
                 (getAddress w (PaymentRequirements.payTo paymentRequirements)) ;;
  if negb (to_ =? payTo_)%string then
    console_error msg_recipient
      [("payloadTo", LString (Authorization.to auth));
       ("requirementsPayTo",
         LString (PaymentRequirements.payTo paymentRequirements))] ;;;
    ret (invalid "invalid_scheme" payload)
  else
  (* Verify deadline is not yet expired; pad 3 blocks *)
  validBefore <- lift (BigInt w (Authorization.validBefore auth)) ;;
  now <- now_seconds w ;;
  if validBefore <? now + 6 then
    currentTime <- now_seconds w ;;
    console_error msg_expired
      [("validBefore", LString (Authorization.validBefore auth));
       ("currentTime", LNumber currentTime)] ;;;
    ret (invalid "invalid_scheme" payload)
  else
  (* Verify deadline is not yet valid *)
  validAfter <- lift (BigInt w (Authorization.validAfter auth)) ;;
  now <- now_seconds w ;;
  if validAfter >? now then
    currentTime <- now_seconds w ;;
    console_error msg_not_yet
      [("validAfter", LString (Authorization.validAfter auth));
       ("currentTime", LNumber currentTime)] ;;;
    ret (invalid "invalid_scheme" payload)
  else
  (* Verify client has enough funds *)
  balance <- call (EGetERC20Balance (domain_verifyingContract dom)
                     (Authorization.from auth))
                  (getERC20Balance w (domain_verifyingContract dom)
                     (Authorization.from auth)) ;;
  maxAmountRequired <-
    lift (BigInt w (PaymentRequirements.maxAmountRequired paymentRequirements)) ;;
  if balance <? maxAmountRequired then
    ret (invalid "insufficient_funds" payload)
  else
  (* Verify value in payload is enough *)
  value <- lift (BigInt w (Authorization.value auth)) ;;
  maxAmountRequired <-
    lift (BigInt w (PaymentRequirements.maxAmountRequired paymentRequirements)) ;;
  if value <? maxAmountRequired then
    console_error msg_amount
      [("payloadValue", LString (Authorization.value auth));
       ("maxAmountRequired",
         LString (PaymentRequirements.maxAmountRequired paymentRequirements))] ;;;
    ret (invalid "invalid_scheme" payload)
  else
    ret (VerifyResponse.mk true None (Authorization.from auth))).

Definition msg_pre_settle : string :=
  "X402 Log: EVM Facilitator settle - Pre-settle verification failed".
Definition msg_receipt : string :=
  "X402 Log: EVM Facilitator settle - Transaction receipt status not success".

Definition settle (paymentPayload : PaymentPayload.t)
  (paymentRequirements : PaymentRequirements.t) : M SettleResponse.t :=
  let auth :=
    ExactEvmPayload.authorization (PaymentPayload.payload paymentPayload) in
  let sig := ExactEvmPayload.signature (PaymentPayload.payload paymentPayload) in
  (* re-verify to ensure the payment is still valid *)
  valid <- verify paymentPayload paymentRequirements ;;
  if negb (VerifyResponse.isValid valid) then
    console_error msg_pre_settle
      [("validReason",
         match VerifyResponse.invalidReason valid with
         | Some reason => LString reason
         | None => LString "undefined"
         end);
       ("paymentPayload", LPayload paymentPayload);
       ("paymentRequirements", LRequirements paymentRequirements)] ;;;
    ret (SettleResponse.mk false (PaymentPayload.network paymentPayload) ""
           (Some "invalid_scheme") (Authorization.from auth))
  else
  value <- lift (BigInt w (Authorization.value auth)) ;;
  validAfter <- lift (BigInt w (Authorization.validAfter auth)) ;;
  validBefore <- lift (BigInt w (Authorization.validBefore auth)) ;;
  let args :=
    mkWriteContract (PaymentRequirements.asset paymentRequirements)
      "transferWithAuthorization"
      (Authorization.from auth) (Authorization.to auth)
      value validAfter validBefore
      (Authorization.nonce auth) sig in
  tx <- call (EWriteContract args) (writeContract w args) ;;
  receipt <- call (EWaitForTransactionReceipt tx)
                  (waitForTransactionReceipt w tx) ;;
  if negb (status receipt =? "success")%string then
    console_error msg_receipt
      [("receipt", LReceipt receipt); ("tx", LString tx)] ;;;
    ret (SettleResponse.mk false (PaymentPayload.network paymentPayload) tx
           (Some "invalid_scheme") (Authorization.from auth))
  else
    ret (SettleResponse.mk true (PaymentPayload.network paymentPayload) tx
           None (Authorization.from auth)).

End Facilitator.

Definition run_verify (w : World) (payload : PaymentPayload.t)
  (paymentRequirements : PaymentRequirements.t)
  : result VerifyResponse.t * State :=
  verify w payload paymentRequirements init.

Definition run_settle (w : World) (paymentPayload : PaymentPayload.t)
  (paymentRequirements : PaymentRequirements.t)
  : result SettleResponse.t * State :=
  settle w paymentPayload paymentRequirements init.

(** ** The checks of the validator, one by one *)

(** The checks in the order the specification lists them; its step 5
    (temporal validity) has two halves. *)
Inductive Check : Type :=
| Scheme | Resolution | Signature | Recipient
| Expiry | NotYetValid | Solvency | Amount.

Definition checks_in_order : list Check :=
  [Scheme; Resolution; Signature; Recipient; Expiry; NotYetValid; Solvency; Amount].

(** The position of a check in that order. *)
Definition rank (c : Check) : nat :=
  match c with
  | Scheme => 1 | Resolution => 2 | Signature => 3 | Recipient => 4
  | Expiry => 5 | NotYetValid => 6 | Solvency => 7 | Amount => 8
  end%nat.

(** The position of the check an observable action belongs to: a
    collaborator call belongs to the first check that makes it, a log line
    to the check that writes it.  The chain submitter and the log lines of
    [settle] come after the eight checks of the validator. *)
Definition stage (e : Event) : nat :=
  match e with
  | EGetNetworkId _ => rank Resolution
  | EGetVersion => rank Resolution
  | EVerifyTypedData _ => rank Signature
  | EGetAddress _ => rank Recipient
  | EDateNow => rank Expiry
  | EGetERC20Balance _ _ => rank Solvency
  | EWriteContract _ => 9
  | EWaitForTransactionReceipt _ => 9
  | EConsoleError msg _ =>
      if (msg =? msg_resolve)%string then rank Resolution
      else if (msg =? msg_attempt)%string then rank Signature
      else if (msg =? msg_signature)%string then rank Signature
      else if (msg =? msg_recipient)%string then rank Recipient
      else if (msg =? msg_expired)%string then rank Expiry
      else if (msg =? msg_not_yet)%string then rank NotYetValid
      else if (msg =? msg_amount)%string then rank Amount
      else 9
  end%nat.

Definition is_balance_oracle (e : Event) : bool :=
  match e with EGetERC20Balance _ _ => true | _ => false end.

Definition is_signature_check (e : Event) : bool :=
  match e with EVerifyTypedData _ => true | _ => false end.

Definition is_chain_submitter (e : Event) : bool :=
  match e with
  | EWriteContract _ | EWaitForTransactionReceipt _ => true
  | _ => false
  end.

Definition is_log (msg : string) (e : Event) : bool :=
  match e with EConsoleError m _ => (m =? msg)%string | _ => false end.

(** What [verify] hands to the signature primitive once the domain is
    resolved, and what [settle] hands to the chain submitter once the three
    amounts are converted. *)
Definition typed_data_of (p : PaymentPayload.t) (dom : Domain) : TypedData :=
  let auth := ExactEvmPayload.authorization (PaymentPayload.payload p) in
  mkTypedData (Authorization.from auth) primaryType dom auth
    (ExactEvmPayload.signature (PaymentPayload.payload p)).

Definition transfer_args (p : PaymentPayload.t) (r : PaymentRequirements.t)
  (value validAfter validBefore : Z) : WriteContract :=
  let auth := ExactEvmPayload.authorization (PaymentPayload.payload p) in
  mkWriteContract (PaymentRequirements.asset r) "transferWithAuthorization"
    (Authorization.from auth) (Authorization.to auth)
    value validAfter validBefore
    (Authorization.nonce auth)
    (ExactEvmPayload.signature (PaymentPayload.payload p)).

Definition valid_response (p : PaymentPayload.t) : VerifyResponse.t :=
  VerifyResponse.mk true None
    (Authorization.from
       (ExactEvmPayload.authorization (PaymentPayload.payload p))).

Section Checks.

Variable w : World.
Variable payload : PaymentPayload.t.
Variable paymentRequirements : PaymentRequirements.t.

Let auth := ExactEvmPayload.authorization (PaymentPayload.payload payload).

Definition scheme_ok : bool :=
  (PaymentPayload.scheme payload =? SCHEME)%string
  && (PaymentRequirements.scheme paymentRequirements =? SCHEME)%string.

(** What the resolution step yields; it does not depend on the trace. *)
Definition resolved : result Domain :=
  fst (resolve w payload paymentRequirements init).

Definition signature_ok : bool :=
  match resolved with
  | Ok dom =>
      match verifyTypedData w (typed_data_of payload dom) with
      | Ok true => true
      | _ => false
      end
  | Throw _ => false
  end.

Definition recipient_ok : bool :=
  match getAddress w (Authorization.to auth),
        getAddress w (PaymentRequirements.payTo paymentRequirements) with
  | Ok a, Ok b => (a =? b)%string
  | _, _ => false
  end.

(** The expiry comparison reads the clock first (reading 0); when it passes,
    the not-yet-valid comparison reads it next (reading 1). *)
Definition not_expired : bool :=
  match BigInt w (Authorization.validBefore auth) with
  | Ok validBefore => negb (validBefore <? Date_now w 0 / 1000 + 6)
  | Throw _ => false
  end.

Definition already_valid : bool :=
  match BigInt w (Authorization.validAfter auth) with
  | Ok validAfter => negb (validAfter >? Date_now w 1 / 1000)
  | Throw _ => false
  end.

Definition solvent : bool :=
  match getERC20Balance w (PaymentRequirements.asset paymentRequirements)
          (Authorization.from auth),
        BigInt w (PaymentRequirements.maxAmountRequired paymentRequirements) with
  | Ok balance, Ok maxAmountRequired => negb (balance <? maxAmountRequired)
  | _, _ => false
  end.

Definition amount_ok : bool :=
  match BigInt w (Authorization.value auth),
        BigInt w (PaymentRequirements.maxAmountRequired paymentRequirements) with
  | Ok value, Ok maxAmountRequired => negb (value <? maxAmountRequired)
  | _, _ => false
  end.

Definition passes (c : Check) : bool :=
  match c with
  | Scheme => scheme_ok
  | Resolution => match resolved with Ok _ => true | Throw _ => false end
  | Signature => signature_ok
  | Recipient => recipient_ok
  | Expiry => not_expired
  | NotYetValid => already_valid
  | Solvency => solvent
  | Amount => amount_ok
  end.

(** The first check, in the order of the specification, that does not pass
    (it rejects or it throws); each check is evaluated on its own. *)
Definition first_failure : option Check :=
  find (fun c => negb (passes c)) checks_in_order.

(** All the checks before [c] pass. *)
Definition passes_before (c : Check) : bool :=
  forallb (fun c' => (rank c <=? rank c')%nat || passes c') checks_in_order.

End Checks.

(** The reason carried by the rejection of each check. *)
Definition reason_of (c : Check) (p : PaymentPayload.t)
  (r : PaymentRequirements.t) : string :=
  match c with
  | Scheme => incompatible_scheme p r
  | Resolution => "invalid_network"
  | Solvency => "insufficient_funds"
  | Signature | Recipient | Expiry | NotYetValid | Amount => "invalid_scheme"
  end.

Definition is_monetary (e : Event) : bool :=
  is_balance_oracle e || is_log msg_amount e.

(** Every event in front of a [g] event comes after some [f] event:
    reading the list from the left, an [f] event is met before any [g]
    event. *)
Fixpoint preceded_by (f g : Event -> bool) (l : list Event) : bool :=
  match l with
  | [] => true
  | e :: l' => if f e then true else negb (g e) && preceded_by f g l'
  end.

Fixpoint nondecreasing (l : list nat) : bool :=
  match l with
  | a :: ((b :: _) as l') => (a <=? b)%nat && nondecreasing l'
  | _ => true
  end.

(** ** A deterministic world for examples *)

Module Example.

Definition is_digit (c : ascii) : bool :=
  let n := nat_of_ascii c in ((48 <=? n) && (n <=? 57))%nat.

Definition is_hex (c : ascii) : bool :=
  let n := nat_of_ascii c in
  (((48 <=? n) && (n <=? 57)) || ((65 <=? n) && (n <=? 70))
   || ((97 <=? n) && (n <=? 102)))%nat.

Definition lower (c : ascii) : ascii :=
  let n := nat_of_ascii c in
  if ((65 <=? n) && (n <=? 90))%nat then ascii_of_nat (n + 32) else c.

Fixpoint all_chars (f : ascii -> bool) (s : string) : bool :=
  match s with
  | EmptyString => true
  | String c s' => f c && all_chars f s'
  end.

Fixpoint map_chars (f : ascii -> ascii) (s : string) : string :=
  match s with
  | EmptyString => EmptyString
  | String c s' => String (f c) (map_chars f s')
  end.

(** "0x" followed by 40 hexadecimal digits. *)
Definition isAddress (s : string) : bool :=
  match s with
  | String "0" (String "x" digits) =>
      (String.length digits =? 40)%nat && all_chars is_hex digits
  | _ => false
  end.

(** A stand-in for viem's [getAddress]: it throws on a string that is not
    an address and otherwise normalises the case (lower case stands in for
    the checksum case). *)
Definition getAddress (s : string) : result string :=
  if isAddress s then Ok (map_chars lower s)
  else Throw "InvalidAddressError".

Fixpoint decimal (s : string) (acc : Z) : Z :=
  match s with
  | EmptyString => acc
  | String c s' => decimal s' (10 * acc + Z.of_nat (nat_of_ascii c - 48))
  end.

(** [BigInt] on a string of decimal digits; anything else is a SyntaxError. *)
Definition BigInt (s : string) : result Z :=
  if all_chars is_digit s then Ok (decimal s 0)
  else Throw "SyntaxError: Cannot convert to a BigInt".

Definition getNetworkId (network : string) : result Z :=
  if (network =? "base-sepolia")%string then Ok 84532
  else if (network =? "base")%string then Ok 8453
  else Throw "Unsupported network".

Definition config (chainId : Z) : option ChainConfig :=
  if chainId =? 84532 then
    Some (mkChainConfig "0x036CbD53842c5426634e7929541eC2318f3dCF7e" "USDC")
  else if chainId =? 8453 then
    Some (mkChainConfig "0x833589fCD6eDb6E08f4c7C32D4f71b54bdA02913" "USD Coin")
  else None.

(** A stand-in for signature verification: like viem it throws when the
    signer or the verifying contract is not an address; the signature of
    [from] is the string "signed:" followed by [from]. *)
Definition verifyTypedData (td : TypedData) : result bool :=
  if negb (isAddress (td_address td)) then Throw "InvalidAddressError"
  else if negb (isAddress (domain_verifyingContract (td_domain td)))
  then Throw "InvalidAddressError"
  else Ok (td_signature td =? "signed:" ++ td_address td)%string.

Definition now_ms : Z := 1700000000000.

(** The clock stands still at [now_ms], every balance is 5000, and every
    submission is mined with the given receipt status. *)
Definition world (receipt_status : string) : World :=
  mkWorld getNetworkId config (Ok "2") verifyTypedData getAddress
    (fun _ => now_ms) BigInt
    (fun _ _ => Ok 5000)
    (fun _ => Ok "0xabc123")
    (fun _ => Ok (mkReceipt receipt_status)).

Definition good_world : World := world "success".
Definition reverting_world : World := world "reverted".

(** The same world with a chain client that is down: balance reads and
    submissions throw. *)
Definition offline_world : World :=
  mkWorld getNetworkId config (Ok "2") verifyTypedData getAddress
    (fun _ => now_ms) BigInt
    (fun _ _ => Throw "HttpRequestError")
    (fun _ => Throw "HttpRequestError")
    (fun _ => Throw "HttpRequestError").

Definition A : string := "0x857b06519E91e3A54538791bDbb0E22373e36b66".
Definition P : string := "0x209693Bc6afc0C5328bA36FaF03C514EF312287C".
Definition Q : string := "0x0000000000000000000000000000000000000001".
Definition T : string := "0x036CbD53842c5426634e7929541eC2318f3dCF7e".
Definition N : string :=
  "0xf3746613c2d920b5fdabc0856f2aeb2d4f88ee6037b8cc5d04a71a4462f13480".

Definition authorization (to_ value validAfter validBefore : string)
  : Authorization.t :=
  Authorization.mk A to_ value validAfter validBefore N.

Definition payload_of (scheme network : string) (a : Authorization.t)
  : PaymentPayload.t :=
  PaymentPayload.mk scheme network
    (ExactEvmPayload.mk a ("signed:" ++ Authorization.from a)).

(** The payload of the end-to-end scenario: 1000 units from A to P, valid
    from now - 10 to now + 60. *)
Definition payload : PaymentPayload.t :=
  payload_of "exact" "base-sepolia"
    (authorization P "1000" "1699999990" "1700000060").

Definition requirements_for (asset : string) : PaymentRequirements.t :=
  PaymentRequirements.mk "exact" "base-sepolia" asset P "1000"
    (Some (Extra.mk (Some "USDC") (Some "2"))).

Definition requirements : PaymentRequirements.t := requirements_for T.

End Example.

(** ** More observations on a trace *)

(** How many actions of a kind a trace holds. *)
Definition count (f : Event -> bool) (l : list Event) : nat :=
  length (filter f l).

Definition is_submission (e : Event) : bool :=
  match e with EWriteContract _ => true | _ => false end.

Definition is_receipt_wait (e : Event) : bool :=
  match e with EWaitForTransactionReceipt _ => true | _ => false end.

Definition is_metadata_read (e : Event) : bool :=
  match e with EGetVersion => true | _ => false end.

(** The same world with another configuration table and another answer of
    the token-version read. *)
Definition with_metadata (w : World) (cfg : Z -> option ChainConfig)
  (version : result string) : World :=
  mkWorld (getNetworkId w) cfg version (verifyTypedData w) (getAddress w)
    (Date_now w) (BigInt w) (getERC20Balance w) (writeContract w)
    (waitForTransactionReceipt w).

(** ** The example server (examples/typescript/facilitator/index.ts) *)

(** A JSON value, by its text; a missing property is [None]. *)
Definition Json : Type := string.

(** [req.body] once [express.json()] has run: the two properties the
    handlers read. *)
Record RequestBody : Type := mkRequestBody {
  body_paymentPayload : option Json;
  body_paymentRequirements : option Json
}.

(** What the server gets from outside: the two zod schemas of x402/types,
    the chain client made at start-up, the signer factory and the private
    key of the environment (the process exits at start-up when it is
    missing).  A client or a signer is a [World].  Logging and sending a
    response do not throw. *)
Record Server : Type := mkServer {
  PaymentRequirementsSchema_parse : option Json -> result PaymentRequirements.t;
  PaymentPayloadSchema_parse : option Json -> result PaymentPayload.t;
  client : World;
  createSignerSepolia : string -> result World;
  PRIVATE_KEY : string
}.

Inductive ResponseBody : Type :=
| VerifyBody (valid : VerifyResponse.t)
| SettleBody (response : SettleResponse.t)
| ErrorBody (error : string).

(** A response sent with [res.json]; the status is 200 unless
    [res.status] set it. *)
Record HttpResponse : Type := mkHttpResponse {
  http_status : nat;
  http_body : ResponseBody
}.

Inductive ServerValue : Type :=
| VPayload (p : PaymentPayload.t)
| VRequirements (r : PaymentRequirements.t)
| VVerifyResponse (v : VerifyResponse.t)
| VSettleResponse (s : SettleResponse.t)
| VError (e : string).

(** The observable actions of one request: those of the handler and,
    wrapped in [SCore], those of the facilitator it calls. *)
Inductive ServerEvent : Type :=
| SParseRequirements (j : option Json)
| SParsePayload (j : option Json)
| SCreateSigner (key : string)
| SCore (e : Event)
| SConsoleLog (msg : string) (data : list ServerValue)
| SConsoleError (msg : string) (data : list ServerValue)
| SRespond (r : HttpResponse).

Definition H (A : Type) : Type :=
  list ServerEvent -> result A * list ServerEvent.

Definition hret {A : Type} (a : A) : H A := fun t => (Ok a, t).

Definition hbind {A B : Type} (m : H A) (k : A -> H B) : H B :=
  fun t =>
    match m t with
    | (Ok a, t') => k a t'
    | (Throw e, t') => (Throw e, t')
    end.

Notation "x <~ m ;; k" := (hbind m (fun x => k))
  (at level 61, m at next level, right associativity).

Definition hcall {A : Type} (ev : ServerEvent) (r : result A) : H A :=
  fun t => (r, (t ++ [ev])%list).

(** A call of the facilitator: it starts a fresh invocation, and its
    actions join the trace of the request. *)
Definition hcore {A : Type} (m : M A) : H A :=
  fun t =>
    let (r, s) := m init in (r, (t ++ map SCore (trace s))%list).

(** [try { body } catch (error) { handler error }]. *)
Definition htry (body : H unit) (handler : string -> H unit) : H unit :=
  fun t =>
    match body t with
    | (Ok a, t') => (Ok a, t')
    | (Throw e, t') => handler e t'
    end.

(** [body.paymentRequirements] and [body.paymentPayload]: reading a
    property of an undefined body throws. *)
Definition property (body : option RequestBody)
  (get : RequestBody -> option Json) : H (option Json) :=
  match body with
  | Some b => hret (get b)
  | None =>
      fun t => (Throw "TypeError: Cannot read properties of undefined", t)
  end.

Definition invalid_request : HttpResponse :=
  mkHttpResponse 400 (ErrorBody "Invalid request").

(** [app.post("/verify", ...)]. *)
Definition post_verify (srv : Server) (body : option RequestBody) : H unit :=
  htry
    (j <~ property body body_paymentRequirements ;;
     paymentRequirements <~
       hcall (SParseRequirements j) (PaymentRequirementsSchema_parse srv j) ;;
     j <~ property body body_paymentPayload ;;
     paymentPayload <~
       hcall (SParsePayload j) (PaymentPayloadSchema_parse srv j) ;;
     _ <~ hcall (SConsoleLog "Verifying payment with payload:"
                   [VPayload paymentPayload;
                    VRequirements paymentRequirements]) (Ok tt) ;;
     valid <~ hcore (verify (client srv) paymentPayload paymentRequirements) ;;
     _ <~ hcall (SConsoleLog "Verification result:" [VVerifyResponse valid])
            (Ok tt) ;;
     hcall (SRespond (mkHttpResponse 200 (VerifyBody valid))) (Ok tt))
    (fun error =>
       _ <~ hcall (SConsoleError "Error in /verify:" [VError error]) (Ok tt) ;;
       hcall (SRespond invalid_request) (Ok tt)).

(** [app.post("/settle", ...)]. *)
Definition post_settle (srv : Server) (body : option RequestBody) : H unit :=
  htry
    (signer <~ hcall (SCreateSigner (PRIVATE_KEY srv))
                 (createSignerSepolia srv (PRIVATE_KEY srv)) ;;
     j <~ property body body_paymentRequirements ;;
     paymentRequirements <~
       hcall (SParseRequirements j) (PaymentRequirementsSchema_parse srv j) ;;
     j <~ property body body_paymentPayload ;;
     paymentPayload <~
       hcall (SParsePayload j) (PaymentPayloadSchema_parse srv j) ;;
     _ <~ hcall (SConsoleLog "Settling payment with payload:"
                   [VPayload paymentPayload;
                    VRequirements paymentRequirements]) (Ok tt) ;;
     response <~ hcore (settle signer paymentPayload paymentRequirements) ;;
     _ <~ hcall (SConsoleLog "Settlement response:"
                   [VSettleResponse response]) (Ok tt) ;;
     hcall (SRespond (mkHttpResponse 200 (SettleBody response))) (Ok tt))
    (fun error =>
       _ <~ hcall (SConsoleError "Error in /settle:" [VError error]) (Ok tt) ;;
       hcall (SRespond invalid_request) (Ok tt)).

Definition run_post_verify (srv : Server) (body : option RequestBody)
  : result unit * list ServerEvent :=
  post_verify srv body [].

Definition run_post_settle (srv : Server) (body : option RequestBody)
  : result unit * list ServerEvent :=
  post_settle srv body [].

(** The responses sent during a request, in order, and the actions of the
    facilitator among its events. *)
Fixpoint responses (t : list ServerEvent) : list HttpResponse :=
  match t with
  | [] => []
  | SRespond r :: t' => r :: responses t'
  | _ :: t' => responses t'
  end.

Fixpoint core_events (t : list ServerEvent) : list Event :=
  match t with
  | [] => []
  | SCore e :: t' => e :: core_events t'
  | _ :: t' => core_events t'
  end.

Definition is_payload_parse (e : ServerEvent) : bool :=
  match e with SParsePayload _ => true | _ => false end.

(** What the handlers read of a body. *)
Definition requirements_of (body : option RequestBody) : option Json :=
  match body with Some b => body_paymentRequirements b | None => None end.

Definition payload_json_of (body : option RequestBody) : option Json :=
  match body with Some b => body_paymentPayload b | None => None end.

Module ExampleServer.

(** Schemas that know one payload and one set of requirements, by name. *)
Definition parse_requirements (j : option Json)
  : result PaymentRequirements.t :=
  match j with
  | Some "requirements" => Ok Example.requirements
  | _ => Throw "ZodError"
  end.

Definition parse_payload (j : option Json) : result PaymentPayload.t :=
  match j with
  | Some "payload" => Ok Example.payload
  | Some "payload-to-Q" =>
      Ok (Example.payload_of "exact" "base-sepolia"
            (Example.authorization Example.Q "1000" "1699999990"
               "1700000060"))
  | _ => Throw "ZodError"
  end.

(** A world where submissions go through and the wait for the receipt
    times out. *)
Definition timeout_world : World :=
  mkWorld Example.getNetworkId Example.config (Ok "2")
    Example.verifyTypedData Example.getAddress
    (fun _ => Example.now_ms) Example.BigInt
    (fun _ _ => Ok 5000)
    (fun _ => Ok "0xabc123")
    (fun _ => Throw "WaitForTransactionReceiptTimeoutError").

Definition server (signer : World) : Server :=
  mkServer parse_requirements parse_payload Example.good_world
    (fun _ => Ok signer) "0xkey".

Definition good_body : option RequestBody :=
  Some (mkRequestBody (Some "payload") (Some "requirements")).

End ExampleServer.

(** ** Reasoning about one invocation *)

Ltac unfold_monad :=
  unfold try_catch, resolve, bind, console_error, call, throw, lift, ret,
    now_seconds, invalid in *.

Ltac unfold_verify := unfold run_verify, verify in *; unfold_monad.

(** One case split on the next thing the code looks at: the innermost
    scrutinee, which is a condition or the answer of a collaborator. *)
Ltac atomic x :=
  lazymatch x with
  | context [match _ with _ => _ end] => fail
  | _ => idtac
  end.

Ltac split_match :=
  match goal with
  | H : context [match ?x with _ => _ end] |- _ =>
      atomic x; destruct x eqn:?; simpl in H
  | |- context [match ?x with _ => _ end] =>
      atomic x; destruct x eqn:?; simpl
  end.

Ltac unfold_checks :=
  unfold first_failure, passes_before, passes, scheme_ok, signature_ok,
    recipient_ok, not_expired, already_valid, solvent, amount_ok in *;
  unfold resolved, typed_data_of, valid_response in *.

(** Splits on the two scheme comparisons, then on everything else the code
    looks at, in the order it looks at it. *)
Ltac verify_paths p r :=
  destruct (PaymentPayload.scheme p =? SCHEME)%string eqn:?;
  destruct (PaymentRequirements.scheme r =? SCHEME)%string eqn:?;
  simpl in *; repeat split_match.

(** Turns the recorded outcomes of comparisons into arithmetic facts and
    closes the paths that contradict a check known to pass. *)
Ltac clean_results :=
  repeat match goal with
    | H : Ok _ = Ok _ |- _ => inversion H; subst; clear H
    | H : Throw _ = Throw _ |- _ => inversion H; subst; clear H
    | H : true = true |- _ => clear H
    | H : false = true |- _ => discriminate H
    | H : true = false |- _ => discriminate H
    | H : _ && _ = true |- _ => apply andb_true_iff in H; destruct H
    | H : (_ <? _) = true |- _ => apply Z.ltb_lt in H
    | H : (_ <? _) = false |- _ => apply Z.ltb_ge in H
    | H : (_ >? _) = true |- _ => rewrite Z.gtb_ltb in H
    | H : (_ >? _) = false |- _ => rewrite Z.gtb_ltb in H
    | H : negb _ = true |- _ => apply negb_true_iff in H
    | H : negb _ = false |- _ => apply negb_false_iff in H
    end.

Lemma verify_payer (w : World) (p : PaymentPayload.t)
  (r : PaymentRequirements.t) (s s' : State) (resp : VerifyResponse.t) :
  verify w p r s = (Ok resp, s') ->
  VerifyResponse.payer resp =
  Authorization.from (ExactEvmPayload.authorization (PaymentPayload.payload p)).
Proof.
  unfold verify; unfold_monad. intros H.
  repeat (split_match; try discriminate);
    injection H as <- _; reflexivity.
Qed.

(** The validator never calls the chain submitter. *)
Lemma verify_never_submits (w : World) (p : PaymentPayload.t)
  (r : PaymentRequirements.t) :
  existsb is_chain_submitter (trace (snd (run_verify w p r))) = false.
Proof.
  unfold_verify. simpl.
  repeat (split_match; try reflexivity).
Qed.

(** The resolution step answers the same from every state. *)
Lemma resolve_state_independent (w : World) (p : PaymentPayload.t)
  (r : PaymentRequirements.t) (s : State) :
  fst (resolve w p r s) = resolved w p r.
Proof.
  unfold resolved. unfold_monad. simpl.
  repeat (split_match; try reflexivity).
Qed.

(** The end-to-end scenarios of the specification, in the example world:
    1000 units from A to P, valid from now - 10 to now + 60, signed by A,
    whose balance is 5000. *)
Example end_to_end_verify :
  fst (run_verify Example.good_world Example.payload Example.requirements) =
  Ok (VerifyResponse.mk true None Example.A).
Proof. vm_compute. reflexivity. Qed.

Example end_to_end_settle :
  fst (run_settle Example.good_world Example.payload Example.requirements) =
  Ok (SettleResponse.mk true "base-sepolia" "0xabc123" None Example.A).
Proof. vm_compute. reflexivity. Qed.

Example end_to_end_trace :
  map stage
    (trace (snd (run_settle Example.good_world Example.payload
                   Example.requirements))) =
  [2; 3; 3; 4; 4; 5; 5; 7; 9; 9]%nat.
Proof. vm_compute. reflexivity. Qed.

Example end_to_end_other_recipient :
  fst (run_verify Example.good_world
         (Example.payload_of "exact" "base-sepolia"
            (Example.authorization Example.Q "1000" "1699999990"
               "1700000060"))
         Example.requirements) =
  Ok (VerifyResponse.mk false (Some "invalid_scheme") Example.A).
Proof. vm_compute. reflexivity. Qed.

(** ** Properties *)

(** C1. When the validator returns [isValid = false], [settle] with the same
    inputs returns [success = false], an empty [transaction], [payer] equal
    to [authorization.from] and the settlement error code "invalid_scheme"
    (the code every rejection reason of the validator is mapped to), and its
    trace holds no call of the chain submitter: it is the validator's trace
    followed by one log line. *)
Theorem settle_invalid_never_submits (w : World) (p : PaymentPayload.t)
  (r : PaymentRequirements.t) (resp : VerifyResponse.t) (st : State) :
  run_verify w p r = (Ok resp, st) ->
  VerifyResponse.isValid resp = false ->
  exists st',
    run_settle w p r =
      (Ok (SettleResponse.mk false (PaymentPayload.network p) ""
             (Some "invalid_scheme")
             (Authorization.from
                (ExactEvmPayload.authorization (PaymentPayload.payload p)))),
       st')
    /\ existsb is_chain_submitter (trace st') = false
    /\ exists data,
        trace st' = (trace st ++ [EConsoleError msg_pre_settle data])%list.
Proof.
  intros Hv Hinvalid.
  pose proof (verify_never_submits w p r) as Hsub.
  rewrite Hv in Hsub. simpl in Hsub.
  unfold run_verify in Hv.
  unfold run_settle, settle, bind. rewrite Hv, Hinvalid. simpl.
  eexists. split; [reflexivity | split].
  - simpl. rewrite existsb_app, Hsub. reflexivity.
  - simpl. eexists. reflexivity.
Qed.

Lemma settle_invalid_never_submits_witness :
  exists st',
    run_settle Example.good_world
      (Example.payload_of "exact" "base-sepolia"
         (Example.authorization Example.Q "1000" "1699999990" "1700000060"))
      Example.requirements =
      (Ok (SettleResponse.mk false "base-sepolia" "" (Some "invalid_scheme")
             Example.A), st')
    /\ existsb is_chain_submitter (trace st') = false.
Proof.
  destruct (settle_invalid_never_submits Example.good_world
              (Example.payload_of "exact" "base-sepolia"
                 (Example.authorization Example.Q "1000" "1699999990"
                    "1700000060"))
              Example.requirements
              (VerifyResponse.mk false (Some "invalid_scheme") Example.A)
              (snd (run_verify Example.good_world
                      (Example.payload_of "exact" "base-sepolia"
                         (Example.authorization Example.Q "1000" "1699999990"
                            "1700000060"))
                      Example.requirements)))
    as [st' [H1 [H2 _]]].
  - vm_compute. reflexivity.
  - reflexivity.
  - exists st'. split; [exact H1 | exact H2].
Defined.

(** C3. Every response that [verify] returns and every response that
    [settle] returns, on whichever branch, has [payer] equal to the
    [authorization.from] string of the payload. *)
Theorem payer_is_authorization_from (w : World) (p : PaymentPayload.t)
  (r : PaymentRequirements.t) :
  let from :=
    Authorization.from
      (ExactEvmPayload.authorization (PaymentPayload.payload p)) in
  (forall resp st,
      run_verify w p r = (Ok resp, st) -> VerifyResponse.payer resp = from)
  /\ (forall resp st,
      run_settle w p r = (Ok resp, st) -> SettleResponse.payer resp = from).
Proof.
  split.
  - intros resp st H. exact (verify_payer w p r init st resp H).
  - intros resp st H. unfold run_settle, settle, bind in H.
    destruct (verify w p r init) as [[v | e] s1]; [| discriminate].
    unfold lift, call, console_error, ret in H.
    repeat (split_match; try discriminate);
      injection H as <- _; reflexivity.
Qed.

Lemma payer_is_authorization_from_witness :
  VerifyResponse.payer
    (VerifyResponse.mk true None Example.A) = Example.A
  /\ SettleResponse.payer
       (SettleResponse.mk false "base-sepolia" "0xabc123"
          (Some "invalid_scheme") Example.A) = Example.A.
Proof.
  destruct (payer_is_authorization_from Example.reverting_world
              Example.payload Example.requirements) as [Hv Hs].
  split.
  - apply (Hv _ (snd (run_verify Example.reverting_world Example.payload
                        Example.requirements))).
    vm_compute. reflexivity.
  - apply (Hs _ (snd (run_settle Example.reverting_world Example.payload
                        Example.requirements))).
    vm_compute. reflexivity.
Defined.

(** C2. [verify] runs its checks in the order scheme, network/contract
    resolution, signature, recipient, expiry, not-yet-valid, solvency,
    amount, and stops at the first one that fails: the actions in its trace
    never go back to an earlier check; when every check passes the response
    is the valid one, and otherwise a returned response is the rejection of
    the first failing check and the trace holds no action of a later check.  In
    particular a failure before the solvency check leaves the balance oracle
    uncalled, and the balance read and the amount comparison come after the
    signature verification, which has succeeded. *)
Theorem verify_checks_in_order (w : World) (p : PaymentPayload.t)
  (r : PaymentRequirements.t) :
  let res := fst (run_verify w p r) in
  let tr := trace (snd (run_verify w p r)) in
  nondecreasing (map stage tr) = true
  /\ match first_failure w p r with
     | None => res = Ok (valid_response p)
     | Some c =>
         (forall resp, res = Ok resp -> resp = invalid (reason_of c p r) p)
         /\ forallb (fun e => (stage e <=? rank c)%nat) tr = true
     end
  /\ (forall c, first_failure w p r = Some c ->
        (rank c < rank Solvency)%nat -> existsb is_balance_oracle tr = false)
  /\ preceded_by is_signature_check is_monetary tr = true
  /\ (existsb is_monetary tr = true -> passes_before w p r Solvency = true).
Proof.
  intros res tr; subst res tr.
  unfold_checks. unfold_verify. simpl.
  verify_paths p r.
  all: repeat split; try reflexivity; try congruence; intros;
    try discriminate.
  all: match goal with
       | H : Some _ = Some ?c, L : (rank ?c < _)%nat |- _ =>
           injection H as <-; simpl in L; lia
       | H : negb ?b = false |- ?b && _ = true =>
           destruct b; [reflexivity | discriminate H]
       end.
Qed.

Lemma verify_checks_in_order_witness :
  existsb is_balance_oracle
    (trace (snd (run_verify Example.good_world
                   (Example.payload_of "exact" "base-sepolia"
                      (Example.authorization Example.Q "1000" "1699999990"
                         "1700000060"))
                   Example.requirements))) = false.
Proof.
  apply (verify_checks_in_order Example.good_world
           (Example.payload_of "exact" "base-sepolia"
              (Example.authorization Example.Q "1000" "1699999990"
                 "1700000060"))
           Example.requirements) with (c := Recipient).
  - vm_compute. reflexivity.
  - simpl. lia.
Defined.

(** C10. The result of [verify], trace included, does not depend on
    [requirements.network]: changing that field alone changes nothing.  So a
    payload for one network can be valid against requirements that name
    another network. *)
Theorem verify_ignores_requirements_network :
  (forall (w : World) (p : PaymentPayload.t) (r : PaymentRequirements.t)
          (n : string),
      run_verify w p (PaymentRequirements.with_network r n) = run_verify w p r)
  /\ (exists (w : World) (p : PaymentPayload.t) (r : PaymentRequirements.t),
        PaymentPayload.network p <> PaymentRequirements.network r
        /\ fst (run_verify w p r) = Ok (valid_response p)).
Proof.
  split.
  - intros w p r n. destruct r as [sch net asset payTo maxAmount extra].
    unfold PaymentRequirements.with_network. simpl.
    unfold run_verify, verify, resolve, extra_name, extra_version. simpl.
    reflexivity.
  - exists Example.good_world, Example.payload,
      (PaymentRequirements.with_network Example.requirements "base").
    split.
    + simpl. discriminate.
    + vm_compute. reflexivity.
Qed.

(** C4 fails as stated: for the scheme "exakt" the reason is a sentence that
    quotes the three scheme names, not the code unsupported_scheme. *)
Lemma scheme_mismatch_counterexample :
  let p := Example.payload_of "exakt" "base-sepolia"
             (Example.authorization Example.P "1000" "1699999990"
                "1700000060") in
  PaymentPayload.scheme p <> SCHEME
  /\ fst (run_verify Example.good_world p Example.requirements) =
       Ok (VerifyResponse.mk false
             (Some "Incompatible payload scheme. payload: exakt, paymentRequirements: exact, supported: exact")
             Example.A)
  /\ ~ (exists st,
          run_verify Example.good_world p Example.requirements =
            (Ok (VerifyResponse.mk false (Some "unsupported_scheme")
                   Example.A), st)).
Proof.
  split; [discriminate | split].
  - vm_compute. reflexivity.
  - intros [st H]. vm_compute in H. discriminate H.
Qed.

(** C4, amended.  When [payload.scheme] or [requirements.scheme] differs
    from the supported scheme, [verify] returns [isValid = false] with the
    reason "Incompatible payload scheme. payload: .., paymentRequirements:
    .., supported: .." and the payer, whatever the other fields are, and
    calls no collaborator at all. *)
Theorem scheme_mismatch_rejected (w : World) (p : PaymentPayload.t)
  (r : PaymentRequirements.t) :
  PaymentPayload.scheme p <> SCHEME
  \/ PaymentRequirements.scheme r <> SCHEME ->
  run_verify w p r = (Ok (invalid (incompatible_scheme p r) p), init).
Proof.
  intros H. unfold run_verify, verify.
  destruct H as [H | H]; apply String.eqb_neq in H; rewrite H; simpl.
  - reflexivity.
  - rewrite orb_true_r. reflexivity.
Qed.

Lemma scheme_mismatch_rejected_witness :
  run_verify Example.offline_world Example.payload
    (PaymentRequirements.mk "upto" "base-sepolia" Example.T Example.P "1000"
       None) =
  (Ok (VerifyResponse.mk false
         (Some "Incompatible payload scheme. payload: exact, paymentRequirements: upto, supported: exact")
         Example.A), init).
Proof.
  apply (scheme_mismatch_rejected Example.offline_world Example.payload
           (PaymentRequirements.mk "upto" "base-sepolia" Example.T Example.P
              "1000" None)).
  right. simpl. discriminate.
Defined.

(** C5 fails as stated: a malformed [requirements.asset] does not fail the
    resolution step, which copies it unread.  In the example world the
    signature primitive, like viem's, refuses the malformed verifying
    contract: [verify] throws instead of answering invalid_network. *)
Lemma malformed_asset_counterexample :
  let r := Example.requirements_for "0x123" in
  getAddress Example.good_world (PaymentRequirements.asset r) =
    Throw "InvalidAddressError"
  /\ fst (run_verify Example.good_world Example.payload r) =
       Throw "InvalidAddressError"
  /\ ~ (exists st,
          run_verify Example.good_world Example.payload r =
            (Ok (invalid "invalid_network" Example.payload), st)).
Proof.
  split; [| split].
  - vm_compute. reflexivity.
  - vm_compute. reflexivity.
  - intros [st H]. vm_compute in H. discriminate H.
Qed.

(** C5, amended.  With both schemes supported, every failure of the
    resolution step makes [verify] return [isValid = false] with reason
    invalid_network, without throwing and without reaching a later check.
    The step fails exactly when the network of the payload is unknown, or
    the requirements give no token name and the chain has no entry in the
    configuration table, or the requirements give no token version and
    reading it from the chain throws.  The step does not read the asset
    address: when it succeeds, the address goes unchanged into the domain
    that the signature primitive is called with. *)
Theorem resolution_failure_invalid_network (w : World)
  (p : PaymentPayload.t) (r : PaymentRequirements.t) :
  scheme_ok p r = true ->
  let network := PaymentPayload.network p in
  (forall e, resolved w p r = Throw e ->
     exists st,
       run_verify w p r = (Ok (invalid "invalid_network" p), st)
       /\ forallb (fun ev => (stage ev <=? rank Resolution)%nat) (trace st)
          = true)
  /\ ((exists e, resolved w p r = Throw e) <->
      (exists e, getNetworkId w network = Throw e)
      \/ (exists chainId, getNetworkId w network = Ok chainId
            /\ extra_name r = None /\ config w chainId = None)
      \/ (exists chainId e, getNetworkId w network = Ok chainId
            /\ (extra_name r <> None \/ config w chainId <> None)
            /\ extra_version r = None /\ getVersion w = Throw e))
  /\ (forall dom, resolved w p r = Ok dom ->
        domain_verifyingContract dom = PaymentRequirements.asset r
        /\ existsb is_signature_check (trace (snd (run_verify w p r))) = true
        /\ In (EVerifyTypedData (typed_data_of p dom))
             (trace (snd (run_verify w p r)))).
Proof.
  unfold scheme_ok. cbv zeta. intros Hs.
  apply andb_true_iff in Hs. destruct Hs as [Hp Hr].
  unfold resolved, typed_data_of. unfold_verify. rewrite Hp, Hr. simpl.
  split; [| split].
  - intros e He. repeat (split_match; try discriminate);
      eexists; (split; [reflexivity | reflexivity]).
  - split.
    + intros [e He]. repeat (split_match; try discriminate).
      all: try (left; eexists; reflexivity).
      all: try (right; left; eexists; repeat split; congruence).
      all: right; right; do 2 eexists; repeat split; try reflexivity;
        try congruence; (left; congruence) || (right; congruence).
    + intros [[e He] | [[c [Hc [Hn Hcfg]]] | [c [e [Hc [_ [Hv He]]]]]]].
      * rewrite He. simpl. eexists; reflexivity.
      * rewrite Hc. simpl. rewrite Hn, Hcfg. simpl. eexists; reflexivity.
      * rewrite Hc. simpl. rewrite Hv, He.
        repeat (split_match; try discriminate); eexists; reflexivity.
  - intros dom Hd.
    repeat (split_match; try discriminate).
    all: injection Hd as <-; simpl.
    all: repeat split; try reflexivity.
    all: repeat (split_match; simpl); try reflexivity.
    all: repeat ((left; reflexivity) || right).
Qed.

Lemma resolution_failure_invalid_network_witness :
  exists st,
    run_verify Example.good_world
      (Example.payload_of "exact" "solana"
         (Example.authorization Example.P "1000" "1699999990" "1700000060"))
      Example.requirements =
    (Ok (VerifyResponse.mk false (Some "invalid_network") Example.A), st).
Proof.
  destruct (resolution_failure_invalid_network Example.good_world
              (Example.payload_of "exact" "solana"
                 (Example.authorization Example.P "1000" "1699999990"
                    "1700000060"))
              Example.requirements) as [H _].
  - reflexivity.
  - destruct (H "Unsupported network") as [st [Hst _]].
    + vm_compute. reflexivity.
    + exists st. exact Hst.
Defined.

(** C6 fails as stated: with [validBefore = now - 1] the payload is
    rejected, but the reason is invalid_scheme, not authorization_expired. *)
Lemma expired_counterexample :
  let p := Example.payload_of "exact" "base-sepolia"
             (Example.authorization Example.P "1000" "1699999990"
                "1699999999") in
  BigInt Example.good_world
    (Authorization.validBefore
       (ExactEvmPayload.authorization (PaymentPayload.payload p))) =
    Ok (Example.now_ms / 1000 - 1)
  /\ fst (run_verify Example.good_world p Example.requirements) =
       Ok (VerifyResponse.mk false (Some "invalid_scheme") Example.A)
  /\ ~ (exists st,
          run_verify Example.good_world p Example.requirements =
            (Ok (invalid "authorization_expired" p), st)).
Proof.
  split; [| split].
  - vm_compute. reflexivity.
  - vm_compute. reflexivity.
  - intros [st H]. vm_compute in H. discriminate H.
Qed.

(** C6, amended.  For a payload that passes the scheme, resolution,
    signature and recipient checks, [verify] rejects at the expiry check
    exactly when [validBefore] is less than the current unix time plus 6
    seconds, and then, if not expired, rejects at the not-yet-valid check
    exactly when [validAfter] is greater than the current unix time; both
    rejections carry the reason invalid_scheme and are told apart by their
    log line.  So [validBefore = now - 1] is rejected, [validBefore =
    now + 10] passes the expiry check, and a payload that passes both halves
    goes on to the balance read.  Each comparison reads the clock itself. *)
Theorem temporal_validity (w : World) (p : PaymentPayload.t)
  (r : PaymentRequirements.t) (validBefore : Z) :
  let auth := ExactEvmPayload.authorization (PaymentPayload.payload p) in
  let now0 := Date_now w 0 / 1000 in
  let now1 := Date_now w 1 / 1000 in
  let res := fst (run_verify w p r) in
  let tr := trace (snd (run_verify w p r)) in
  passes_before w p r Expiry = true ->
  BigInt w (Authorization.validBefore auth) = Ok validBefore ->
  (validBefore < now0 + 6 ->
     res = Ok (invalid "invalid_scheme" p)
     /\ existsb (is_log msg_expired) tr = true
     /\ existsb is_balance_oracle tr = false)
  /\ (now0 + 6 <= validBefore -> existsb (is_log msg_expired) tr = false)
  /\ (validBefore = now0 - 1 -> res = Ok (invalid "invalid_scheme" p))
  /\ (validBefore = now0 + 10 -> existsb (is_log msg_expired) tr = false)
  /\ (forall validAfter,
        BigInt w (Authorization.validAfter auth) = Ok validAfter ->
        now0 + 6 <= validBefore ->
        (validAfter > now1 ->
           res = Ok (invalid "invalid_scheme" p)
           /\ existsb (is_log msg_not_yet) tr = true
           /\ existsb is_balance_oracle tr = false)
        /\ (validAfter <= now1 ->
              existsb (is_log msg_not_yet) tr = false
              /\ existsb is_balance_oracle tr = true)).
Proof.
  intros auth now0 now1 res tr Hbefore Hvb.
  subst auth now0 now1 res tr.
  unfold_checks. unfold_verify. simpl in *.
  verify_paths p r; try discriminate.
  all: clean_results.
  all: repeat split; intros; clean_results; try reflexivity; try lia;
    try congruence.
Qed.

Lemma temporal_validity_witness :
  fst (run_verify Example.good_world
         (Example.payload_of "exact" "base-sepolia"
            (Example.authorization Example.P "1000" "1699999990"
               "1699999999"))
         Example.requirements) =
  Ok (VerifyResponse.mk false (Some "invalid_scheme") Example.A).
Proof.
  pose proof (temporal_validity Example.good_world
                (Example.payload_of "exact" "base-sepolia"
                   (Example.authorization Example.P "1000" "1699999990"
                      "1699999999"))
                Example.requirements 1699999999) as H.
  cbv zeta in H.
  destruct H as [_ [_ [H _]]].
  - vm_compute. reflexivity.
  - vm_compute. reflexivity.
  - apply H. vm_compute. reflexivity.
Defined.

(** C7 fails as stated: with [value = maxAmountRequired - 1] the payload is
    rejected, but the reason is invalid_scheme, not amount_too_low. *)
Lemma amount_counterexample :
  let p := Example.payload_of "exact" "base-sepolia"
             (Example.authorization Example.P "999" "1699999990"
                "1700000060") in
  fst (run_verify Example.good_world p Example.requirements) =
    Ok (VerifyResponse.mk false (Some "invalid_scheme") Example.A)
  /\ ~ (exists st,
          run_verify Example.good_world p Example.requirements =
            (Ok (invalid "amount_too_low" p), st)).
Proof.
  split.
  - vm_compute. reflexivity.
  - intros [st H]. vm_compute in H. discriminate H.
Qed.

(** C7, amended.  For a payload that passes every check before the amount
    check, [verify] returns [isValid = false] exactly when
    [authorization.value] is less than [requirements.maxAmountRequired], and
    the reason is then invalid_scheme; otherwise it returns the valid
    response.  So [value = maxAmountRequired - 1] is rejected and
    [value = maxAmountRequired] is accepted. *)
Theorem amount_sufficiency (w : World) (p : PaymentPayload.t)
  (r : PaymentRequirements.t) (value maxAmountRequired : Z) :
  let auth := ExactEvmPayload.authorization (PaymentPayload.payload p) in
  let res := fst (run_verify w p r) in
  let tr := trace (snd (run_verify w p r)) in
  passes_before w p r Amount = true ->
  BigInt w (Authorization.value auth) = Ok value ->
  BigInt w (PaymentRequirements.maxAmountRequired r) = Ok maxAmountRequired ->
  (value < maxAmountRequired ->
     res = Ok (invalid "invalid_scheme" p)
     /\ existsb (is_log msg_amount) tr = true)
  /\ (maxAmountRequired <= value ->
        res = Ok (valid_response p)
        /\ existsb (is_log msg_amount) tr = false)
  /\ (value = maxAmountRequired - 1 -> res = Ok (invalid "invalid_scheme" p))
  /\ (value = maxAmountRequired -> res = Ok (valid_response p)).
Proof.
  intros auth res tr Hbefore Hv Hm.
  subst auth res tr.
  unfold_checks. unfold valid_response. unfold_verify. simpl in *.
  verify_paths p r; try discriminate.
  all: clean_results.
  all: repeat split; intros; clean_results; try reflexivity; try lia;
    try congruence.
Qed.

Lemma amount_sufficiency_witness :
  fst (run_verify Example.good_world
         (Example.payload_of "exact" "base-sepolia"
            (Example.authorization Example.P "999" "1699999990"
               "1700000060"))
         Example.requirements) =
  Ok (VerifyResponse.mk false (Some "invalid_scheme") Example.A).
Proof.
  pose proof (amount_sufficiency Example.good_world
                (Example.payload_of "exact" "base-sepolia"
                   (Example.authorization Example.P "999" "1699999990"
                      "1700000060"))
                Example.requirements 999 1000) as H.
  cbv zeta in H.
  destruct H as [_ [_ [H _]]].
  - vm_compute. reflexivity.
  - vm_compute. reflexivity.
  - vm_compute. reflexivity.
  - apply H. reflexivity.
Defined.

(** C8 fails as stated: when the receipt of the submitted transaction is
    "reverted", [settle] returns [success = false] and the hash, but the
    error reason is invalid_scheme, not settlement_failed. *)
Lemma failed_receipt_counterexample :
  waitForTransactionReceipt Example.reverting_world "0xabc123" =
    Ok (mkReceipt "reverted")
  /\ fst (run_settle Example.reverting_world Example.payload
            Example.requirements) =
       Ok (SettleResponse.mk false "base-sepolia" "0xabc123"
             (Some "invalid_scheme") Example.A)
  /\ ~ (exists resp st,
          run_settle Example.reverting_world Example.payload
            Example.requirements = (Ok resp, st)
          /\ SettleResponse.errorReason resp = Some "settlement_failed").
Proof.
  split; [| split].
  - reflexivity.
  - vm_compute. reflexivity.
  - intros [resp [st [H E]]]. vm_compute in H.
    injection H as <- _. discriminate E.
Qed.

(** C8, amended.  When the validator accepts, the transaction is submitted
    with the fields of the authorization passed through, and the awaited
    receipt has a status other than "success", [settle] returns
    [success = false] with the error reason invalid_scheme, the payer, and
    [transaction] equal to the hash the submission returned. *)
Theorem failed_receipt_keeps_hash (w : World) (p : PaymentPayload.t)
  (r : PaymentRequirements.t) (resp : VerifyResponse.t) (st : State)
  (value validAfter validBefore : Z) (tx : string) (receipt : Receipt) :
  let auth := ExactEvmPayload.authorization (PaymentPayload.payload p) in
  let args := transfer_args p r value validAfter validBefore in
  run_verify w p r = (Ok resp, st) ->
  VerifyResponse.isValid resp = true ->
  BigInt w (Authorization.value auth) = Ok value ->
  BigInt w (Authorization.validAfter auth) = Ok validAfter ->
  BigInt w (Authorization.validBefore auth) = Ok validBefore ->
  writeContract w args = Ok tx ->
  waitForTransactionReceipt w tx = Ok receipt ->
  status receipt <> "success" ->
  exists st' data,
    run_settle w p r =
      (Ok (SettleResponse.mk false (PaymentPayload.network p) tx
             (Some "invalid_scheme") (Authorization.from auth)), st')
    /\ trace st' =
       (trace st ++ [EWriteContract args; EWaitForTransactionReceipt tx;
                     EConsoleError msg_receipt data])%list.
Proof.
  intros auth args Hv Hvalid Hvalue Hafter Hbefore Htx Hreceipt Hstatus.
  subst auth args. unfold run_verify in Hv.
  unfold run_settle, settle, bind. rewrite Hv, Hvalid. simpl.
  unfold lift. rewrite Hvalue, Hafter, Hbefore.
  unfold call, console_error, ret, transfer_args in *. simpl.
  rewrite Htx, Hreceipt.
  apply String.eqb_neq in Hstatus. rewrite Hstatus. simpl.
  do 2 eexists. split; [reflexivity |].
  simpl. rewrite <- !app_assoc. reflexivity.
Qed.

Lemma failed_receipt_keeps_hash_witness :
  exists st',
    run_settle Example.reverting_world Example.payload Example.requirements =
    (Ok (SettleResponse.mk false "base-sepolia" "0xabc123"
           (Some "invalid_scheme") Example.A), st').
Proof.
  pose proof (failed_receipt_keeps_hash Example.reverting_world
                Example.payload Example.requirements
                (valid_response Example.payload)
                (snd (run_verify Example.reverting_world Example.payload
                        Example.requirements))
                1000 1699999990 1700000060 "0xabc123"
                (mkReceipt "reverted")) as H.
  cbv zeta in H.
  destruct H as [st' [data [H _]]].
  - vm_compute. reflexivity.
  - reflexivity.
  - vm_compute. reflexivity.
  - vm_compute. reflexivity.
  - vm_compute. reflexivity.
  - reflexivity.
  - reflexivity.
  - simpl. discriminate.
  - exists st'. exact H.
Defined.

(** An accepting run of the validator has converted the three amounts of
    the authorization. *)
Lemma verify_accepts_converts (w : World) (p : PaymentPayload.t)
  (r : PaymentRequirements.t) (v : VerifyResponse.t) (s : State) :
  let auth := ExactEvmPayload.authorization (PaymentPayload.payload p) in
  run_verify w p r = (Ok v, s) ->
  VerifyResponse.isValid v = true ->
  v = valid_response p
  /\ exists value validAfter validBefore,
       BigInt w (Authorization.value auth) = Ok value
       /\ BigInt w (Authorization.validAfter auth) = Ok validAfter
       /\ BigInt w (Authorization.validBefore auth) = Ok validBefore.
Proof.
  intros auth. subst auth. unfold valid_response. unfold_verify. simpl.
  verify_paths p r; intros H Hv; try discriminate H.
  all: injection H as <- _; try discriminate Hv.
  all: split; [reflexivity |]; do 3 eexists;
    split; [reflexivity | split; reflexivity].
Qed.

(** C9 fails as stated: with a chain client that is down the balance read
    throws, and the exception leaves [verify], and [settle] with it. *)
Lemma uncaught_exception_counterexample :
  getERC20Balance Example.offline_world Example.T Example.A =
    Throw "HttpRequestError"
  /\ fst (run_verify Example.offline_world Example.payload
            Example.requirements) = Throw "HttpRequestError"
  /\ fst (run_settle Example.offline_world Example.payload
            Example.requirements) = Throw "HttpRequestError"
  /\ ~ (exists resp st,
          run_verify Example.offline_world Example.payload
            Example.requirements = (Ok resp, st)).
Proof.
  repeat split; try (vm_compute; reflexivity).
  intros [resp [st H]]. vm_compute in H. discriminate H.
Qed.

(** C9, amended.  [verify] catches the exceptions of the resolution step
    only: a payload that fails the scheme check or the resolution step
    always gets a reject response.  An exception of the signature
    primitive, of address parsing (of [to] or of [payTo]), of an integer
    conversion ([validBefore], [validAfter], [maxAmountRequired], [value])
    or of the balance oracle is not caught: once the checks before it have
    passed it leaves [verify] unchanged, and every exception that leaves
    [verify] is one of those.  [settle] catches nothing: an exception of
    [verify], of the submission or of the wait for the receipt leaves it,
    and every exception that leaves [settle] is one of those.  No response
    carries the reason unknown_error. *)
Theorem exceptions_outside_resolution_propagate (w : World)
  (p : PaymentPayload.t) (r : PaymentRequirements.t) :
  let auth := ExactEvmPayload.authorization (PaymentPayload.payload p) in
  (passes_before w p r Signature = false ->
     exists resp st, run_verify w p r = (Ok resp, st)
                     /\ VerifyResponse.isValid resp = false)
  /\ (forall e, fst (run_verify w p r) = Throw e ->
        exists dom, resolved w p r = Ok dom
          /\ (verifyTypedData w (typed_data_of p dom) = Throw e
              \/ getAddress w (Authorization.to auth) = Throw e
              \/ getAddress w (PaymentRequirements.payTo r) = Throw e
              \/ BigInt w (Authorization.validBefore auth) = Throw e
              \/ BigInt w (Authorization.validAfter auth) = Throw e
              \/ getERC20Balance w (PaymentRequirements.asset r)
                   (Authorization.from auth) = Throw e
              \/ BigInt w (PaymentRequirements.maxAmountRequired r) = Throw e
              \/ BigInt w (Authorization.value auth) = Throw e))
  /\ (forall dom e,
        scheme_ok p r = true -> resolved w p r = Ok dom ->
        verifyTypedData w (typed_data_of p dom) = Throw e ->
        fst (run_verify w p r) = Throw e)
  /\ (forall e,
        passes_before w p r Recipient = true ->
        getAddress w (Authorization.to auth) = Throw e ->
        fst (run_verify w p r) = Throw e)
  /\ (forall e,
        passes_before w p r Solvency = true ->
        getERC20Balance w (PaymentRequirements.asset r)
          (Authorization.from auth) = Throw e ->
        fst (run_verify w p r) = Throw e)
  /\ (forall resp st,
        run_verify w p r = (Ok resp, st) ->
        VerifyResponse.invalidReason resp <> Some "unknown_error")
  /\ (forall e,
        fst (run_verify w p r) = Throw e -> fst (run_settle w p r) = Throw e)
  /\ (forall value validAfter validBefore e,
        fst (run_verify w p r) = Ok (valid_response p) ->
        BigInt w (Authorization.value auth) = Ok value ->
        BigInt w (Authorization.validAfter auth) = Ok validAfter ->
        BigInt w (Authorization.validBefore auth) = Ok validBefore ->
        (writeContract w
           (transfer_args p r value validAfter validBefore) = Throw e
         \/ exists tx,
              writeContract w
                (transfer_args p r value validAfter validBefore) = Ok tx
              /\ waitForTransactionReceipt w tx = Throw e) ->
        fst (run_settle w p r) = Throw e)
  /\ (forall resp st,
        run_settle w p r = (Ok resp, st) ->
        SettleResponse.errorReason resp <> Some "unknown_error")
  /\ (forall a e,
        passes_before w p r Recipient = true ->
        getAddress w (Authorization.to auth) = Ok a ->
        getAddress w (PaymentRequirements.payTo r) = Throw e ->
        fst (run_verify w p r) = Throw e)
  /\ (forall e,
        passes_before w p r Expiry = true ->
        BigInt w (Authorization.validBefore auth) = Throw e ->
        fst (run_verify w p r) = Throw e)
  /\ (forall e,
        passes_before w p r NotYetValid = true ->
        BigInt w (Authorization.validAfter auth) = Throw e ->
        fst (run_verify w p r) = Throw e)
  /\ (forall balance e,
        passes_before w p r Solvency = true ->
        getERC20Balance w (PaymentRequirements.asset r)
          (Authorization.from auth) = Ok balance ->
        BigInt w (PaymentRequirements.maxAmountRequired r) = Throw e ->
        fst (run_verify w p r) = Throw e)
  /\ (forall e,
        passes_before w p r Amount = true ->
        BigInt w (Authorization.value auth) = Throw e ->
        fst (run_verify w p r) = Throw e)
  /\ (forall e,
        fst (run_settle w p r) = Throw e ->
        fst (run_verify w p r) = Throw e
        \/ (fst (run_verify w p r) = Ok (valid_response p)
            /\ exists value validAfter validBefore,
                 BigInt w (Authorization.value auth) = Ok value
                 /\ BigInt w (Authorization.validAfter auth) = Ok validAfter
                 /\ BigInt w (Authorization.validBefore auth)
                    = Ok validBefore
                 /\ (writeContract w
                       (transfer_args p r value validAfter validBefore)
                     = Throw e
                     \/ exists tx,
                          writeContract w
                            (transfer_args p r value validAfter validBefore)
                          = Ok tx
                          /\ waitForTransactionReceipt w tx = Throw e))).
Proof.
  intros auth. subst auth.
  repeat apply conj.
  - intros H. unfold_checks. unfold_verify. simpl in *.
    verify_paths p r; try discriminate.
    all: do 2 eexists; split; reflexivity.
  - intros e H. unfold_checks. unfold typed_data_of. unfold_verify.
    simpl in *.
    verify_paths p r; try discriminate; clean_results.
    all: eexists; (split; [reflexivity |]); simpl; auto 10.
  - intros dom e Hs Hd He. unfold_checks. unfold typed_data_of in *.
    unfold_verify. simpl in *.
    verify_paths p r; try discriminate; clean_results; congruence.
  - intros e Hs He. unfold_checks. unfold_verify. simpl in *.
    verify_paths p r; try discriminate; clean_results; congruence.
  - intros e Hs He. unfold_checks. unfold_verify. simpl in *.
    verify_paths p r; try discriminate; clean_results; congruence.
  - intros resp st H. unfold_verify. simpl in *.
    verify_paths p r; try discriminate.
    all: injection H as <- _; unfold incompatible_scheme; simpl;
      discriminate.
  - intros e H. unfold run_verify in H. unfold run_settle, settle, bind.
    destruct (verify w p r init) as [[v | e'] s]; simpl in H.
    + discriminate H.
    + injection H as ->. reflexivity.
  - intros value validAfter validBefore e Hv Hvalue Hafter Hbefore Hsub.
    unfold run_verify in Hv. unfold run_settle, settle, bind.
    destruct (verify w p r init) as [[v | e'] s]; simpl in Hv;
      [| discriminate Hv].
    injection Hv as ->. simpl.
    unfold lift. rewrite Hvalue, Hafter, Hbefore.
    unfold call, transfer_args in *. simpl.
    destruct Hsub as [Hw | [tx [Hw Hr]]]; rewrite Hw; simpl.
    + reflexivity.
    + rewrite Hr. reflexivity.
  - intros resp st H. unfold run_settle, settle, bind in H.
    destruct (verify w p r init) as [[v | e'] s]; [| discriminate H].
    unfold lift, call, console_error, ret in H.
    repeat (split_match; try discriminate);
      injection H as <- _; simpl; discriminate.
  - intros a e Hs Ha He. revert Hs Ha He. unfold_checks. unfold_verify.
    simpl.
    verify_paths p r; intros Hs Ha He; try discriminate; clean_results;
      congruence.
  - intros e Hs He. revert Hs He. unfold_checks. unfold_verify. simpl.
    verify_paths p r; intros Hs He; try discriminate; clean_results;
      congruence.
  - intros e Hs He. revert Hs He. unfold_checks. unfold_verify. simpl.
    verify_paths p r; intros Hs He; try discriminate; clean_results;
      congruence.
  - intros b e Hs Hb He. revert Hs Hb He. unfold_checks. unfold_verify.
    simpl.
    verify_paths p r; intros Hs Hb He; try discriminate; clean_results;
      congruence.
  - intros e Hs He. revert Hs He. unfold_checks. unfold_verify. simpl.
    verify_paths p r; intros Hs He; try discriminate; clean_results;
      congruence.
  - intros e H.
    pose proof (verify_accepts_converts w p r) as Hc. cbv zeta in Hc.
    unfold run_verify in *. unfold run_settle, settle, bind in H.
    destruct (verify w p r init) as [[v | e'] s] eqn:Hv; cbn [fst] in *.
    2: { left. injection H as ->. reflexivity. }
    right.
    destruct (VerifyResponse.isValid v) eqn:Hvalid; cbn [negb] in H.
    2: { unfold call, console_error, ret in H. discriminate H. }
    destruct (Hc v s eq_refl Hvalid) as [-> [value [va [vb [E1 [E2 E3]]]]]].
    split; [reflexivity |]. exists value, va, vb.
    split; [exact E1 | split; [exact E2 | split; [exact E3 |]]].
    unfold lift in H. rewrite E1, E2, E3 in H. cbv beta iota in H.
    unfold call, console_error, ret, transfer_args in *. cbv beta iota zeta in H.
    repeat (split_match; try discriminate).
    + right. eexists. split; [reflexivity |]. congruence.
    + left. congruence.
Qed.

Lemma exceptions_outside_resolution_propagate_witness :
  fst (run_verify Example.offline_world Example.payload Example.requirements)
  = Throw "HttpRequestError".
Proof.
  pose proof (exceptions_outside_resolution_propagate Example.offline_world
                Example.payload Example.requirements) as H.
  cbv zeta in H.
  destruct H as [_ [_ [_ [_ [H _]]]]].
  apply H.
  - vm_compute. reflexivity.
  - reflexivity.
Defined.

(** ** More on the facilitator *)

Lemma verify_valid_response (w : World) (p : PaymentPayload.t)
  (r : PaymentRequirements.t) (s s' : State) (v : VerifyResponse.t) :
  verify w p r s = (Ok v, s') ->
  VerifyResponse.isValid v = true -> v = valid_response p.
Proof.
  unfold verify, valid_response; unfold_monad. intros H Hv.
  repeat (split_match; try discriminate);
    injection H as <- _; (reflexivity || discriminate Hv).
Qed.

Lemma count_app (f : Event -> bool) (l l' : list Event) :
  count f (l ++ l') = (count f l + count f l')%nat.
Proof. unfold count. rewrite filter_app, length_app. reflexivity. Qed.

Lemma count_none (f : Event -> bool) (l : list Event) :
  existsb f l = false -> count f l = 0%nat.
Proof.
  unfold count. induction l as [| e l IH]; simpl; [reflexivity |].
  intros H. apply orb_false_iff in H. destruct H as [He Hl].
  rewrite He. exact (IH Hl).
Qed.

Lemma submitter_split (e : Event) :
  is_chain_submitter e = is_submission e || is_receipt_wait e.
Proof. destruct e; reflexivity. Qed.

Lemma verify_no_submission (w : World) (p : PaymentPayload.t)
  (r : PaymentRequirements.t) :
  existsb is_submission (trace (snd (run_verify w p r))) = false
  /\ existsb is_receipt_wait (trace (snd (run_verify w p r))) = false.
Proof.
  pose proof (verify_never_submits w p r) as H.
  induction (trace (snd (run_verify w p r))) as [| e l IH]; simpl in *.
  - split; reflexivity.
  - apply orb_false_iff in H. destruct H as [He Hl].
    destruct (IH Hl) as [H1 H2]. rewrite H1, H2.
    rewrite submitter_split in He. apply orb_false_iff in He.
    destruct He as [-> ->]. split; reflexivity.
Qed.

(** Whenever [settle] reaches the chain submitter, the validator had
    accepted. *)
Lemma submitter_requires_valid (w : World) (p : PaymentPayload.t)
  (r : PaymentRequirements.t) :
  existsb is_chain_submitter (trace (snd (run_settle w p r))) = true ->
  fst (run_verify w p r) = Ok (valid_response p).
Proof.
  pose proof (verify_never_submits w p r) as Hn.
  unfold run_verify in *. unfold run_settle, settle, bind.
  destruct (verify w p r init) as [[v | e] s] eqn:Hv; cbn [fst snd] in *.
  2: { intros H. congruence. }
  destruct (VerifyResponse.isValid v) eqn:Hvalid; cbn [negb].
  - intros _. rewrite (verify_valid_response w p r init s v Hv Hvalid).
    reflexivity.
  - unfold call, console_error, ret. simpl.
    rewrite existsb_app, Hn. simpl. discriminate.
Qed.

(** X1. When the validator accepts, the submission returns a hash and the
    awaited receipt has status "success", [settle] returns [success = true]
    with that hash, the network of the payload, the payer and no error
    reason; it has added to the validator's trace exactly one submission,
    with the fields of the authorization, and one wait for that hash. *)
Theorem settle_success (w : World) (p : PaymentPayload.t)
  (r : PaymentRequirements.t) (resp : VerifyResponse.t) (st : State)
  (value validAfter validBefore : Z) (tx : string) (receipt : Receipt) :
  let auth := ExactEvmPayload.authorization (PaymentPayload.payload p) in
  let args := transfer_args p r value validAfter validBefore in
  run_verify w p r = (Ok resp, st) ->
  VerifyResponse.isValid resp = true ->
  BigInt w (Authorization.value auth) = Ok value ->
  BigInt w (Authorization.validAfter auth) = Ok validAfter ->
  BigInt w (Authorization.validBefore auth) = Ok validBefore ->
  writeContract w args = Ok tx ->
  waitForTransactionReceipt w tx = Ok receipt ->
  status receipt = "success" ->
  run_settle w p r =
    (Ok (SettleResponse.mk true (PaymentPayload.network p) tx None
           (Authorization.from auth)),
     mkState (trace st ++ [EWriteContract args; EWaitForTransactionReceipt tx])
       (reads st)).
Proof.
  intros auth args Hv Hvalid Hvalue Hafter Hbefore Htx Hreceipt Hstatus.
  subst auth args. unfold run_verify in Hv.
  unfold run_settle, settle, bind. rewrite Hv, Hvalid. simpl.
  unfold lift. rewrite Hvalue, Hafter, Hbefore.
  unfold call, ret, transfer_args in *. simpl.
  rewrite Htx, Hreceipt, Hstatus. simpl.
  rewrite <- !app_assoc. reflexivity.
Qed.

Lemma settle_success_witness :
  fst (run_settle Example.good_world Example.payload Example.requirements) =
  Ok (SettleResponse.mk true "base-sepolia" "0xabc123" None Example.A).
Proof.
  pose proof (settle_success Example.good_world Example.payload
                Example.requirements (valid_response Example.payload)
                (snd (run_verify Example.good_world Example.payload
                        Example.requirements))
                1000 1699999990 1700000060 "0xabc123"
                (mkReceipt "success")) as H.
  cbv zeta in H.
  rewrite H; [reflexivity | vm_compute; reflexivity ..].
Defined.

(** X2. [settle] returns [success = true] only if the validator accepted,
    the three amounts converted, the submission of exactly those arguments
    returned the hash in [transaction], and the receipt of that hash has
    status "success"; the run holds exactly one submission and one wait. *)
Theorem settle_success_only_if (w : World) (p : PaymentPayload.t)
  (r : PaymentRequirements.t) (resp : SettleResponse.t) (st : State) :
  let auth := ExactEvmPayload.authorization (PaymentPayload.payload p) in
  run_settle w p r = (Ok resp, st) ->
  SettleResponse.success resp = true ->
  fst (run_verify w p r) = Ok (valid_response p)
  /\ SettleResponse.errorReason resp = None
  /\ (exists value validAfter validBefore,
        BigInt w (Authorization.value auth) = Ok value
        /\ BigInt w (Authorization.validAfter auth) = Ok validAfter
        /\ BigInt w (Authorization.validBefore auth) = Ok validBefore
        /\ writeContract w (transfer_args p r value validAfter validBefore)
           = Ok (SettleResponse.transaction resp))
  /\ waitForTransactionReceipt w (SettleResponse.transaction resp)
     = Ok (mkReceipt "success")
  /\ count is_submission (trace st) = 1%nat
  /\ count is_receipt_wait (trace st) = 1%nat.
Proof.
  intros auth H Hs. subst auth.
  destruct (verify_no_submission w p r) as [Hn1 Hn2].
  unfold run_verify in *. unfold run_settle, settle, bind in H.
  destruct (verify w p r init) as [[v | e] s] eqn:Hv; [| discriminate H].
  simpl in *.
  destruct (VerifyResponse.isValid v) eqn:Hvalid; simpl in H.
  - rewrite (verify_valid_response w p r init s v Hv Hvalid).
    unfold lift, call, console_error, ret in H.
    repeat (split_match; try discriminate).
    all: injection H as <- <-; simpl in *; try discriminate Hs.
    match goal with
    | E : negb _ = false |- _ => apply negb_false_iff, String.eqb_eq in E
    end.
    match goal with
    | R : Receipt |- _ => destruct R as [status0]; simpl in *; subst status0
    end.
    split; [reflexivity | split; [reflexivity |]].
    split; [| split; [| split]].
    + unfold transfer_args. do 3 eexists.
      split; [reflexivity | split; [reflexivity | split; [reflexivity |]]].
      eassumption.
    + assumption.
    + simpl. rewrite !count_app, (count_none _ _ Hn1). reflexivity.
    + simpl. rewrite !count_app, (count_none _ _ Hn2). reflexivity.
  - unfold call, console_error, ret in H. simpl in H.
    injection H as <- _. discriminate Hs.
Qed.

Lemma settle_success_only_if_witness :
  fst (run_verify Example.good_world Example.payload Example.requirements) =
  Ok (valid_response Example.payload).
Proof.
  pose proof (settle_success_only_if Example.good_world Example.payload
                Example.requirements
                (SettleResponse.mk true "base-sepolia" "0xabc123" None
                   Example.A)
                (snd (run_settle Example.good_world Example.payload
                        Example.requirements))) as H.
  cbv zeta in H.
  destruct H as [H _].
  - vm_compute. reflexivity.
  - reflexivity.
  - exact H.
Defined.

(** X3. Every response of [settle] names the network of the payload;
    [success] is true exactly when there is no error reason, and a failure
    always carries invalid_scheme; when nothing was submitted the response
    is a failure with an empty [transaction]. *)
Theorem settle_response_shape (w : World) (p : PaymentPayload.t)
  (r : PaymentRequirements.t) (resp : SettleResponse.t) (st : State) :
  run_settle w p r = (Ok resp, st) ->
  SettleResponse.network resp = PaymentPayload.network p
  /\ (SettleResponse.success resp = true <->
      SettleResponse.errorReason resp = None)
  /\ (SettleResponse.success resp = false ->
      SettleResponse.errorReason resp = Some "invalid_scheme")
  /\ (existsb is_submission (trace st) = false ->
      SettleResponse.success resp = false
      /\ SettleResponse.transaction resp = "").
Proof.
  intros H.
  unfold run_settle, settle, bind in H.
  destruct (verify w p r init) as [[v | e] s] eqn:Hv; [| discriminate H].
  unfold lift, call, console_error, ret in H.
  repeat (split_match; try discriminate).
  all: injection H as <- <-; simpl.
  all: repeat split; intros; try reflexivity; try discriminate.
  all: match goal with
       | E : existsb _ _ = false |- _ =>
           rewrite !existsb_app in E; simpl in E;
           rewrite ?orb_true_r in E; simpl in E; discriminate E
       end.
Qed.

Lemma settle_response_shape_witness :
  SettleResponse.network
    (SettleResponse.mk false "base-sepolia" "0xabc123"
       (Some "invalid_scheme") Example.A) =
  PaymentPayload.network Example.payload.
Proof.
  destruct (settle_response_shape Example.reverting_world Example.payload
              Example.requirements
              (SettleResponse.mk false "base-sepolia" "0xabc123"
                 (Some "invalid_scheme") Example.A)
              (snd (run_settle Example.reverting_world Example.payload
                      Example.requirements))) as [H _].
  - vm_compute. reflexivity.
  - exact H.
Defined.

(** X4. In every run of [settle], returning or throwing, there is at most
    one submission and no wait without a submission: nothing is retried.
    A submission passes the asset of the requirements as contract address
    and the fields of the authorization, the amounts as converted by
    [BigInt]; a wait is for the hash that the submission returned. *)
Theorem settle_submits_at_most_once (w : World) (p : PaymentPayload.t)
  (r : PaymentRequirements.t) :
  let auth := ExactEvmPayload.authorization (PaymentPayload.payload p) in
  let tr := trace (snd (run_settle w p r)) in
  (count is_submission tr <= 1)%nat
  /\ (count is_receipt_wait tr <= count is_submission tr)%nat
  /\ (forall args, In (EWriteContract args) tr ->
        exists value validAfter validBefore,
          BigInt w (Authorization.value auth) = Ok value
          /\ BigInt w (Authorization.validAfter auth) = Ok validAfter
          /\ BigInt w (Authorization.validBefore auth) = Ok validBefore
          /\ args = transfer_args p r value validAfter validBefore)
  /\ (forall hash, In (EWaitForTransactionReceipt hash) tr ->
        exists args, In (EWriteContract args) tr
                     /\ writeContract w args = Ok hash).
Proof.
  intros auth tr. subst auth tr.
  destruct (verify_no_submission w p r) as [Hn1 Hn2].
  assert (Hin1 : forall args,
             ~ In (EWriteContract args) (trace (snd (run_verify w p r)))).
  { intros args Hin.
    assert (existsb is_submission (trace (snd (run_verify w p r))) = true)
      by (apply existsb_exists; eexists; split; [exact Hin | reflexivity]).
    congruence. }
  assert (Hin2 : forall hash,
             ~ In (EWaitForTransactionReceipt hash)
                 (trace (snd (run_verify w p r)))).
  { intros hash Hin.
    assert (existsb is_receipt_wait (trace (snd (run_verify w p r))) = true)
      by (apply existsb_exists; eexists; split; [exact Hin | reflexivity]).
    congruence. }
  unfold run_verify in *. unfold run_settle, settle, bind.
  destruct (verify w p r init) as [[v | e] s] eqn:Hv; simpl in *.
  2: { rewrite (count_none _ _ Hn1), (count_none _ _ Hn2).
       split; [lia | split; [lia | split]]; intros x Hin; exfalso.
       - exact (Hin1 _ Hin).
       - exact (Hin2 _ Hin). }
  unfold lift, call, console_error, ret, transfer_args.
  repeat (split_match; simpl).
  all: rewrite ?count_app, (count_none _ _ Hn1), (count_none _ _ Hn2);
    unfold count; simpl.
  all: split; [lia | split; [lia | split]].
  all: intros x Hin; rewrite ?in_app_iff in Hin; simpl in Hin.
  all: repeat match goal with
         | H : _ \/ _ |- _ => destruct H
         | H : False |- _ => destruct H
         | H : In (EWriteContract _) (trace _) |- _ =>
             exfalso; exact (Hin1 _ H)
         | H : In (EWaitForTransactionReceipt _) (trace _) |- _ =>
             exfalso; exact (Hin2 _ H)
         | H : _ = _ :> Event |- _ => inversion H; subst; clear H
         end.
  all: try (do 3 eexists; repeat split; reflexivity).
  all: eexists; split; [| eassumption];
    rewrite ?in_app_iff; simpl; auto 10.
Qed.

(** X5. [settle] first runs the whole validator: its trace is the trace of
    [verify] on the same inputs followed by its own actions, with the same
    number of clock reads, and its own actions include a call of the chain
    submitter only when the validator accepted. *)
Theorem settle_extends_verify (w : World) (p : PaymentPayload.t)
  (r : PaymentRequirements.t) :
  exists rest,
    trace (snd (run_settle w p r)) =
      (trace (snd (run_verify w p r)) ++ rest)%list
    /\ reads (snd (run_settle w p r)) = reads (snd (run_verify w p r))
    /\ (existsb is_chain_submitter rest = true ->
        fst (run_verify w p r) = Ok (valid_response p)).
Proof.
  unfold run_verify, run_settle, settle, bind.
  destruct (verify w p r init) as [[v | e] s] eqn:Hv; simpl.
  2: { exists []. rewrite app_nil_r.
       split; [reflexivity | split; [reflexivity | discriminate]]. }
  destruct (VerifyResponse.isValid v) eqn:Hvalid; simpl.
  - rewrite (verify_valid_response w p r init s v Hv Hvalid).
    unfold lift, call, console_error, ret.
    repeat (split_match; simpl).
    all: first
      [ solve [exists []; rewrite app_nil_r;
               split; [reflexivity | split; [reflexivity | intros _; reflexivity]]]
      | rewrite <- ?app_assoc; eexists;
        split; [reflexivity | split; [reflexivity | intros _; reflexivity]] ].
  - unfold call, console_error, ret. simpl. eexists.
    split; [reflexivity | split; [reflexivity |]]. simpl. discriminate.
Qed.

Ltac rewrite_conditions :=
  repeat match goal with
    | E : ?b = true |- context [?b] => rewrite E
    | E : ?b = false |- context [?b] => rewrite E
    end; simpl.

(** X6. In every response of [verify], [isValid] is true exactly when
    there is no reason, and the reason of a rejection is one of four: the
    incompatible-scheme sentence, invalid_network, invalid_scheme or
    insufficient_funds. *)
Theorem verify_response_shape (w : World) (p : PaymentPayload.t)
  (r : PaymentRequirements.t) (resp : VerifyResponse.t) (st : State) :
  run_verify w p r = (Ok resp, st) ->
  (VerifyResponse.isValid resp = true <->
   VerifyResponse.invalidReason resp = None)
  /\ (VerifyResponse.isValid resp = false ->
      VerifyResponse.invalidReason resp = Some (incompatible_scheme p r)
      \/ VerifyResponse.invalidReason resp = Some "invalid_network"
      \/ VerifyResponse.invalidReason resp = Some "invalid_scheme"
      \/ VerifyResponse.invalidReason resp = Some "insufficient_funds").
Proof.
  intros H. unfold_verify. simpl in *.
  verify_paths p r; try discriminate.
  all: injection H as <- _; simpl.
  all: split;
    [split; intros; (reflexivity || discriminate)
    | intros Hf; (discriminate Hf || auto 6)].
Qed.

Lemma verify_response_shape_witness :
  VerifyResponse.isValid (valid_response Example.payload) = true <->
  VerifyResponse.invalidReason (valid_response Example.payload) = None.
Proof.
  destruct (verify_response_shape Example.good_world Example.payload
              Example.requirements (valid_response Example.payload)
              (snd (run_verify Example.good_world Example.payload
                      Example.requirements))) as [H _].
  - vm_compute. reflexivity.
  - exact H.
Defined.

(** X7. When the requirements carry both a token name and a token version
    in [extra], [verify] neither consults the configuration table nor reads
    the version from the chain: its run is the same whatever those two
    answer, and the signature is checked over the name and version of the
    requirements. *)
Theorem verify_metadata_override (w : World) (p : PaymentPayload.t)
  (r : PaymentRequirements.t) (name version : string)
  (cfg : Z -> option ChainConfig) (chain_version : result string) :
  extra_name r = Some name ->
  extra_version r = Some version ->
  run_verify (with_metadata w cfg chain_version) p r = run_verify w p r
  /\ existsb is_metadata_read (trace (snd (run_verify w p r))) = false
  /\ (forall td, In (EVerifyTypedData td) (trace (snd (run_verify w p r))) ->
        domain_name (td_domain td) = name
        /\ domain_version (td_domain td) = version).
Proof.
  intros Hn Hv. unfold with_metadata, run_verify, verify, resolve.
  rewrite Hn, Hv. simpl. split; [reflexivity |].
  unfold_monad. simpl.
  destruct (negb (PaymentPayload.scheme p =? SCHEME)%string
            || negb (PaymentRequirements.scheme r =? SCHEME)%string);
    simpl; [split; [reflexivity | intros td []] |].
  repeat (split_match; simpl).
  all: split; [reflexivity |].
  all: intros td Hin; simpl in Hin.
  all: repeat match goal with
         | H : _ \/ _ |- _ => destruct H
         | H : False |- _ => destruct H
         | H : _ = _ :> Event |- _ => inversion H; subst; clear H
         end; simpl; split; reflexivity.
Qed.

Lemma verify_metadata_override_witness :
  run_verify
    (with_metadata Example.good_world (fun _ => None)
       (Throw "HttpRequestError"))
    Example.payload Example.requirements =
  run_verify Example.good_world Example.payload Example.requirements.
Proof.
  destruct (verify_metadata_override Example.good_world Example.payload
              Example.requirements "USDC" "2" (fun _ => None)
              (Throw "HttpRequestError")) as [H _].
  - reflexivity.
  - reflexivity.
  - exact H.
Defined.

(** X8. [verify] answers insufficient_funds exactly when every check
    before the solvency check passes, the balance is read, the required
    amount converts and the balance is below it; it answers invalid_network
    exactly when both schemes are supported and the resolution step
    throws. *)
Theorem specific_reasons_identify_check (w : World) (p : PaymentPayload.t)
  (r : PaymentRequirements.t) :
  let auth := ExactEvmPayload.authorization (PaymentPayload.payload p) in
  ((exists st, run_verify w p r = (Ok (invalid "insufficient_funds" p), st))
   <-> passes_before w p r Solvency = true
       /\ exists balance maxAmountRequired,
            getERC20Balance w (PaymentRequirements.asset r)
              (Authorization.from auth) = Ok balance
            /\ BigInt w (PaymentRequirements.maxAmountRequired r)
               = Ok maxAmountRequired
            /\ balance < maxAmountRequired)
  /\ ((exists st, run_verify w p r = (Ok (invalid "invalid_network" p), st))
      <-> scheme_ok p r = true /\ exists e, resolved w p r = Throw e).
Proof.
  intros auth. subst auth. split; split.
  - intros [st H]. revert H. unfold_checks. unfold incompatible_scheme.
    unfold_verify. simpl.
    verify_paths p r; intros H; try discriminate H; clean_results.
    all: rewrite_conditions.
    all: split; [reflexivity |]; do 2 eexists.
    all:
    split; [reflexivity | split; [reflexivity | assumption]].
  - intros [Hb [b [m [Hbal [Hm Hlt]]]]]. revert Hb Hbal Hm.
    unfold_checks. unfold_verify. simpl.
    verify_paths p r; intros Hb Hbal Hm; try discriminate; clean_results;
      try lia; try congruence.
    all: eexists; reflexivity.
  - intros [st H]. revert H. unfold_checks. unfold incompatible_scheme.
    unfold_verify. simpl.
    verify_paths p r; intros H; try discriminate H; clean_results.
    all: rewrite_conditions.
    all: split; [reflexivity | eexists; reflexivity].
  - intros [Hs [e He]]. revert Hs He. unfold_checks. unfold_verify. simpl.
    verify_paths p r; intros Hs He; try discriminate; clean_results;
      try congruence.
    all: eexists; reflexivity.
Qed.

(** X9. One run of [verify] reads the balance at most once, checks the
    signature at most once, reads the token version at most once and reads
    the clock at most three times; an accepting run reads the balance once,
    checks the signature once and reads the clock twice. *)
Theorem verify_calls_bounded (w : World) (p : PaymentPayload.t)
  (r : PaymentRequirements.t) :
  let st := snd (run_verify w p r) in
  (count is_balance_oracle (trace st) <= 1)%nat
  /\ (count is_signature_check (trace st) <= 1)%nat
  /\ (count is_metadata_read (trace st) <= 1)%nat
  /\ (reads st <= 3)%nat
  /\ (fst (run_verify w p r) = Ok (valid_response p) ->
      count is_balance_oracle (trace st) = 1%nat
      /\ count is_signature_check (trace st) = 1%nat
      /\ reads st = 2%nat).
Proof.
  intros st. subst st. unfold valid_response, count. unfold_verify. simpl.
  verify_paths p r.
  all: repeat split; intros; try lia; try discriminate.
Qed.

(** ** The server *)

Lemma responses_app (t t' : list ServerEvent) :
  responses (t ++ t') = (responses t ++ responses t')%list.
Proof.
  induction t as [| e t IH]; simpl; [reflexivity |].
  destruct e; simpl; rewrite IH; reflexivity.
Qed.

Lemma responses_core (l : list Event) : responses (map SCore l) = [].
Proof. induction l as [| e l IH]; simpl; [reflexivity | exact IH]. Qed.

Lemma core_events_app (t t' : list ServerEvent) :
  core_events (t ++ t') = (core_events t ++ core_events t')%list.
Proof.
  induction t as [| e t IH]; simpl; [reflexivity |].
  destruct e; simpl; rewrite IH; reflexivity.
Qed.

Lemma core_events_core (l : list Event) : core_events (map SCore l) = l.
Proof.
  induction l as [| e l IH]; simpl; [reflexivity | rewrite IH; reflexivity].
Qed.

Lemma payload_parse_core (l : list Event) :
  existsb is_payload_parse (map SCore l) = false.
Proof. induction l as [| e l IH]; simpl; [reflexivity | exact IH]. Qed.

(** The handlers are unfolded without unfolding the facilitator: its run
    is split into its result and its final state as a whole. *)
Ltac unfold_handler :=
  unfold run_post_verify, run_post_settle, post_verify, post_settle, htry,
    hbind, hcall, hcore, property, hret, invalid_request in *;
  cbv beta iota.

Ltac split_handler :=
  match goal with
  | |- context [match ?x with _ => _ end] =>
      atomic x; destruct x eqn:?; cbv beta iota
  end.

(** Makes two answers of the same parser agree. *)
Ltac agree :=
  repeat match goal with
    | E : Ok _ = Ok _ |- _ => injection E as <-
    | E : Some _ = Some _ |- _ => injection E as <-
    | E : Throw _ = Ok _ |- _ => discriminate E
    | E : None = Some _ |- _ => discriminate E
    | E : ?x = Ok _, E' : ?x = Ok _ |- _ => rewrite E in E'
    | E : ?x = Throw _, E' : ?x = Ok _ |- _ => rewrite E in E'
    end.

Ltac trace_facts :=
  repeat progress
    (cbn [fst snd app responses core_events existsb is_payload_parse orb];
     rewrite ?responses_app, ?responses_core, ?core_events_app,
       ?core_events_core, ?existsb_app, ?payload_parse_core).

(** X10. The POST /verify handler never throws and sends exactly one
    response, as its last action: either a response of status 200 or the
    response of status 400 with the body [{error: "Invalid request"}]. *)
Theorem post_verify_responds_once (srv : Server)
  (body : option RequestBody) :
  fst (run_post_verify srv body) = Ok tt
  /\ exists response before,
       responses (snd (run_post_verify srv body)) = [response]
       /\ snd (run_post_verify srv body) = (before ++ [SRespond response])%list
       /\ (http_status response = 200%nat
           \/ response = mkHttpResponse 400 (ErrorBody "Invalid request")).
Proof.
  unfold_handler.
  repeat split_handler.
  all: split; [reflexivity |]; do 2 eexists.
  all: (split; [| split]); [| cbn [snd]; reflexivity |].
  all: trace_facts; try reflexivity.
  all: (left; reflexivity) || (right; reflexivity).
Qed.

(** X11. POST /verify answers with status 200 and a verify response
    exactly when the body is present, both schemas accept and [verify]
    returns that response; a rejection by the validator is a 200 response
    too.  It answers with status 400 and the body
    [{error: "Invalid request"}] exactly when something throws: the body is
    missing, a schema refuses, or an exception leaves [verify]. *)
Theorem post_verify_ok_iff (srv : Server) (body : option RequestBody) :
  (forall valid : VerifyResponse.t,
     responses (snd (run_post_verify srv body)) =
       [mkHttpResponse 200 (VerifyBody valid)]
     <-> exists b paymentRequirements paymentPayload,
           body = Some b
           /\ PaymentRequirementsSchema_parse srv (body_paymentRequirements b)
              = Ok paymentRequirements
           /\ PaymentPayloadSchema_parse srv (body_paymentPayload b)
              = Ok paymentPayload
           /\ fst (run_verify (client srv) paymentPayload paymentRequirements)
              = Ok valid)
  /\ (responses (snd (run_post_verify srv body)) =
        [mkHttpResponse 400 (ErrorBody "Invalid request")]
      <-> body = None
          \/ (exists b e,
                body = Some b
                /\ PaymentRequirementsSchema_parse srv
                     (body_paymentRequirements b) = Throw e)
          \/ (exists b paymentRequirements e,
                body = Some b
                /\ PaymentRequirementsSchema_parse srv
                     (body_paymentRequirements b) = Ok paymentRequirements
                /\ PaymentPayloadSchema_parse srv (body_paymentPayload b)
                   = Throw e)
          \/ (exists b paymentRequirements paymentPayload e,
                body = Some b
                /\ PaymentRequirementsSchema_parse srv
                     (body_paymentRequirements b) = Ok paymentRequirements
                /\ PaymentPayloadSchema_parse srv (body_paymentPayload b)
                   = Ok paymentPayload
                /\ fst (run_verify (client srv) paymentPayload
                          paymentRequirements) = Throw e)).
Proof.
  split.
  - intros valid.
    unfold run_verify. unfold_handler.
    repeat split_handler.
    all: trace_facts.
    all: split;
      [ intros H; try discriminate H
      | intros [bb [rr [pp [Hb [Hr [Hp Hv]]]]]]; try discriminate Hb ].
    + injection H as <-. do 3 eexists.
      repeat (split; [reflexivity || eassumption |]).
      match goal with E : verify _ _ _ _ = _ |- _ => rewrite E end.
      reflexivity.
    + injection Hb as <-.
      repeat match goal with
        | E : ?x = Ok _, E' : ?x = Ok _ |- _ =>
            rewrite E in E'; injection E' as <-
        end.
      match goal with E : verify _ _ _ _ = _ |- _ => rewrite E in Hv end.
      cbn [fst] in Hv. injection Hv as <-. reflexivity.
    + injection Hb as <-.
      repeat match goal with
        | E : ?x = Ok _, E' : ?x = Ok _ |- _ =>
            rewrite E in E'; injection E' as <-
        end.
      match goal with E : verify _ _ _ _ = _ |- _ => rewrite E in Hv end.
      discriminate Hv.
    + injection Hb as <-. congruence.
    + injection Hb as <-. congruence.
  - unfold run_verify. unfold_handler.
    repeat split_handler.
    all: trace_facts.
    all: split;
      [ intros H; try discriminate H
      | intros [Hb | [[bb [e1 [Hb He]]]
                     | [[bb [rr [e1 [Hb [Hr He]]]]]
                       | [bb [rr [pp [e1 [Hb [Hr [Hp He]]]]]]]]]];
        try discriminate Hb; agree; try reflexivity ].
    all: try match goal with
           | E : verify ?c ?p ?r init = _,
             Hv : fst (verify ?c ?p ?r init) = _ |- _ =>
               rewrite E in Hv; cbn [fst] in Hv; discriminate Hv
           end.
    all: try (left; reflexivity).
    all: try (right; left; do 2 eexists;
              split; [reflexivity | eassumption]).
    all: try (right; right; left; do 3 eexists;
              split; [reflexivity | split; eassumption]).
    all: right; right; right; do 4 eexists;
      split; [reflexivity | split; [eassumption | split; [eassumption |]]].
    all: match goal with E : verify _ _ _ _ = _ |- _ => rewrite E end.
    all: reflexivity.
Qed.


(** X12. In POST /verify the payload is parsed only after the
    requirements were accepted, and the facilitator acts only after both
    were accepted; its actions are then those of [verify] on the parsed
    values. *)
Theorem post_verify_parse_guard (srv : Server) (body : option RequestBody) :
  let evs := snd (run_post_verify srv body) in
  (existsb is_payload_parse evs = true ->
   exists b paymentRequirements,
     body = Some b
     /\ PaymentRequirementsSchema_parse srv (body_paymentRequirements b)
        = Ok paymentRequirements)
  /\ (core_events evs <> [] ->
      exists b paymentRequirements paymentPayload,
        body = Some b
        /\ PaymentRequirementsSchema_parse srv (body_paymentRequirements b)
           = Ok paymentRequirements
        /\ PaymentPayloadSchema_parse srv (body_paymentPayload b)
           = Ok paymentPayload
        /\ core_events evs =
           trace (snd (run_verify (client srv) paymentPayload
                         paymentRequirements))).
Proof.
  unfold run_verify. unfold_handler.
  repeat split_handler.
  all: trace_facts.
  all: split; intros H; try discriminate H; try (exfalso; apply H; reflexivity).
  all: try (do 2 eexists; split; [reflexivity | eassumption]).
  all: do 3 eexists; repeat (split; [reflexivity || eassumption |]).
  all: match goal with E : verify _ _ _ _ = _ |- _ => rewrite E end.
  all: cbn [snd]; rewrite ?app_nil_r; reflexivity.
Qed.

(** X13. The POST /settle handler never throws and sends exactly one
    response, as its last action: either a response of status 200 or the
    response of status 400 with the body [{error: "Invalid request"}]. *)
Theorem post_settle_responds_once (srv : Server)
  (body : option RequestBody) :
  fst (run_post_settle srv body) = Ok tt
  /\ exists response before,
       responses (snd (run_post_settle srv body)) = [response]
       /\ snd (run_post_settle srv body) = (before ++ [SRespond response])%list
       /\ (http_status response = 200%nat
           \/ response = mkHttpResponse 400 (ErrorBody "Invalid request")).
Proof.
  unfold_handler.
  repeat split_handler.
  all: split; [reflexivity |]; do 2 eexists.
  all: (split; [| split]); [| cbn [snd]; reflexivity |].
  all: trace_facts; try reflexivity.
  all: (left; reflexivity) || (right; reflexivity).
Qed.

(** X14. POST /settle answers with status 200 and a settle response
    exactly when the signer is created, the body is present, both schemas
    accept and [settle] returns that response; a failed settlement that
    [settle] reports is a 200 response too. *)
Theorem post_settle_ok_iff (srv : Server) (body : option RequestBody)
  (response : SettleResponse.t) :
  responses (snd (run_post_settle srv body)) =
    [mkHttpResponse 200 (SettleBody response)]
  <-> exists signer b paymentRequirements paymentPayload,
        createSignerSepolia srv (PRIVATE_KEY srv) = Ok signer
        /\ body = Some b
        /\ PaymentRequirementsSchema_parse srv (body_paymentRequirements b)
           = Ok paymentRequirements
        /\ PaymentPayloadSchema_parse srv (body_paymentPayload b)
           = Ok paymentPayload
        /\ fst (run_settle signer paymentPayload paymentRequirements)
           = Ok response.
Proof.
  unfold run_settle. unfold_handler.
  repeat split_handler.
  all: trace_facts.
  all: split;
    [ intros H; try discriminate H
    | intros [ww [bb [rr [pp [Hw [Hb [Hr [Hp Hv]]]]]]]];
      try discriminate Hb; try discriminate Hw ].
  all: agree.
  all: try match goal with
         | E : settle _ _ _ _ = _ |- _ =>
             rewrite E in Hv; cbn [fst] in Hv;
             first [discriminate Hv | injection Hv as <-; reflexivity]
         end.
  injection H as <-. do 4 eexists.
  repeat (split; [reflexivity || eassumption |]).
  match goal with E : settle _ _ _ _ = _ |- _ => rewrite E end.
  reflexivity.
Qed.

(** X15. During POST /settle the chain submitter is called only if the
    signer was created, both schemas accepted the body and the validator
    accepted the parsed payload against the parsed requirements. *)
Theorem post_settle_submission_guard (srv : Server)
  (body : option RequestBody) :
  existsb is_chain_submitter
    (core_events (snd (run_post_settle srv body))) = true ->
  exists signer b paymentRequirements paymentPayload,
    createSignerSepolia srv (PRIVATE_KEY srv) = Ok signer
    /\ body = Some b
    /\ PaymentRequirementsSchema_parse srv (body_paymentRequirements b)
       = Ok paymentRequirements
    /\ PaymentPayloadSchema_parse srv (body_paymentPayload b)
       = Ok paymentPayload
    /\ fst (run_verify signer paymentPayload paymentRequirements)
       = Ok (valid_response paymentPayload).
Proof.
  unfold_handler.
  repeat split_handler.
  all: trace_facts; cbn [existsb app]; rewrite ?app_nil_r.
  all: intros H; try discriminate H.
  all: do 4 eexists; repeat (split; [reflexivity || eassumption |]).
  all: apply submitter_requires_valid; unfold run_settle.
  all: match goal with E : settle _ _ _ _ = _ |- _ => rewrite E end.
  all: cbn [snd]; rewrite ?orb_false_r in H; exact H.
Qed.

Lemma post_settle_submission_guard_witness :
  exists signer b paymentRequirements paymentPayload,
    createSignerSepolia (ExampleServer.server ExampleServer.timeout_world)
      "0xkey" = Ok signer
    /\ ExampleServer.good_body = Some b
    /\ ExampleServer.parse_requirements (body_paymentRequirements b)
       = Ok paymentRequirements
    /\ ExampleServer.parse_payload (body_paymentPayload b)
       = Ok paymentPayload
    /\ fst (run_verify signer paymentPayload paymentRequirements)
       = Ok (valid_response paymentPayload).
Proof.
  apply (post_settle_submission_guard
           (ExampleServer.server ExampleServer.timeout_world)
           ExampleServer.good_body).
  vm_compute. reflexivity.
Defined.

(** X16. When the transaction has been submitted and the wait for its
    receipt throws, POST /settle answers 400 "Invalid request": the trace of
    the request holds the submission, and the exception only reaches the
    log. *)
Theorem post_settle_rejects_after_submission (srv : Server) (signer : World)
  (b : RequestBody) (r : PaymentRequirements.t) (p : PaymentPayload.t)
  (value validAfter validBefore : Z) (tx e : string) :
  let auth := ExactEvmPayload.authorization (PaymentPayload.payload p) in
  let args := transfer_args p r value validAfter validBefore in
  createSignerSepolia srv (PRIVATE_KEY srv) = Ok signer ->
  PaymentRequirementsSchema_parse srv (body_paymentRequirements b) = Ok r ->
  PaymentPayloadSchema_parse srv (body_paymentPayload b) = Ok p ->
  fst (run_verify signer p r) = Ok (valid_response p) ->
  BigInt signer (Authorization.value auth) = Ok value ->
  BigInt signer (Authorization.validAfter auth) = Ok validAfter ->
  BigInt signer (Authorization.validBefore auth) = Ok validBefore ->
  writeContract signer args = Ok tx ->
  waitForTransactionReceipt signer tx = Throw e ->
  responses (snd (run_post_settle srv (Some b))) =
    [mkHttpResponse 400 (ErrorBody "Invalid request")]
  /\ In (SCore (EWriteContract args)) (snd (run_post_settle srv (Some b)))
  /\ In (SConsoleError "Error in /settle:" [VError e])
       (snd (run_post_settle srv (Some b))).
Proof.
  intros auth args Hsigner Hr Hp Hv Hvalue Hafter Hbefore Htx Hwait.
  subst auth args.
  assert (Hs : exists s,
             settle signer p r init =
               (Throw e,
                mkState (trace s ++
                         [EWriteContract
                            (transfer_args p r value validAfter validBefore);
                          EWaitForTransactionReceipt tx]) (reads s))).
  { unfold run_verify in Hv. unfold settle, bind.
    destruct (verify signer p r init) as [[v | e'] s]; cbn [fst] in Hv;
      [| discriminate Hv].
    injection Hv as ->. exists s.
    unfold valid_response, lift, call. cbn [VerifyResponse.isValid negb].
    cbv beta iota. rewrite Hvalue, Hafter, Hbefore. cbv beta iota.
    unfold transfer_args in *. cbv beta iota zeta. rewrite Htx.
    cbv beta iota. cbn [trace reads]. rewrite Hwait.
    rewrite <- app_assoc. reflexivity. }
  destruct Hs as [s Hs].
  unfold_handler. rewrite Hsigner. cbv beta iota. rewrite Hr. cbv beta iota.
  rewrite Hp. cbv beta iota. rewrite Hs. cbv beta iota.
  trace_facts. cbn [trace].
  split; [reflexivity | split].
  - do 4 right. rewrite !in_app_iff, map_app, in_app_iff. left. left.
    right. left. reflexivity.
  - do 4 right. rewrite !in_app_iff. left. right. left. reflexivity.
Qed.

Lemma post_settle_rejects_after_submission_witness :
  responses
    (snd (run_post_settle (ExampleServer.server ExampleServer.timeout_world)
            ExampleServer.good_body)) =
  [mkHttpResponse 400 (ErrorBody "Invalid request")].
Proof.
  pose proof (post_settle_rejects_after_submission
                (ExampleServer.server ExampleServer.timeout_world)
                ExampleServer.timeout_world
                (mkRequestBody (Some "payload") (Some "requirements"))
                Example.requirements Example.payload
                1000 1699999990 1700000060 "0xabc123"
                "WaitForTransactionReceiptTimeoutError") as H.
  cbv zeta in H.
  destruct H as [H _].
  - reflexivity.
  - reflexivity.
  - reflexivity.
  - vm_compute. reflexivity.
  - vm_compute. reflexivity.
  - vm_compute. reflexivity.
  - vm_compute. reflexivity.
  - reflexivity.
  - reflexivity.
  - exact H.
Defined.
